(** * Steam-Market-Bot: the SCMM client and the embed formatter

    A shallow embedding of [bot/scmm_client.py] and [bot/embeds.py].

    - Python values decoded from JSON are the inductive [value]; a [dict] is
      the list of its items in insertion order, read with [dict_get].
    - Python [float] is the kernel's binary64 [float]; [int] is [Z]; [bool] is
      a subclass of [int], so every [isinstance(x, (int, float))] test accepts
      [PyBool].
    - Python [str] is a [string] holding the UTF-8 encoding of the text.
    - A call that can raise returns a [result]. *)

From Stdlib Require Import ZArith List String Ascii Bool Lia Floats DecimalString Sorted.
Import ListNotations.

Local Open Scope string_scope.
Local Open Scope list_scope.

(** ** Exceptions and fallible computations *)

Inductive exn : Type :=
| OverflowError (msg : string)
| ValueError (msg : string)
| TypeError (msg : string)
| AttributeError (msg : string)
| ZeroDivisionError (msg : string)
| RuntimeError (msg : string).

Inductive result (A : Type) : Type :=
| Ok (a : A)
| Raise (e : exn).

Arguments Ok {A} a.
Arguments Raise {A} e.

Definition bind {A B : Type} (m : result A) (k : A -> result B) : result B :=
  match m with
  | Ok a => k a
  | Raise e => Raise e
  end.

Notation "x <- m ;; k" := (bind m (fun x => k))
  (at level 61, m at next level, right associativity).

(** ** Python values *)

#[local] Set Warnings "-register-all".

Inductive value : Type :=
| PyNone
| PyBool (b : bool)
| PyInt (z : Z)
| PyFloat (f : float)
| PyStr (s : string)
| PyList (items : list value)
| PyDict (items : list (string * value)).

Definition dict : Type := list (string * value).

(** [d.get(key)]: the value bound to [key], [None] when there is none. *)
Definition dict_get (d : dict) (key : string) : value :=
  match find (fun kv => String.eqb (fst kv) key) d with
  | Some kv => snd kv
  | None => PyNone
  end.

(** [isinstance(v, (int, float))]; [bool] is a subclass of [int]. *)
Definition is_number (v : value) : bool :=
  match v with
  | PyBool _ | PyInt _ | PyFloat _ => true
  | _ => false
  end.

(** [isinstance(v, int)]. *)
Definition is_int (v : value) : bool :=
  match v with
  | PyBool _ | PyInt _ => true
  | _ => false
  end.

Definition is_str (v : value) : bool :=
  match v with PyStr _ => true | _ => false end.

Definition is_dict (v : value) : bool :=
  match v with PyDict _ => true | _ => false end.

(** Truth value of [v], as [if v], [not v] and [v or w] test it. *)
Definition truthy (v : value) : bool :=
  match v with
  | PyNone => false
  | PyBool b => b
  | PyInt z => negb (z =? 0)%Z
  | PyFloat f => negb (f =? 0)%float
  | PyStr s => negb (s =? "")
  | PyList l => match l with [] => false | _ => true end
  | PyDict d => match d with [] => false | _ => true end
  end.

(** [a or b]. *)
Definition py_or (a b : value) : value := if truthy a then a else b.

(** ** Numbers *)

(** The binary64 value nearest to [z] (ties to even); [infinity] past the
    largest finite float. *)
Definition float_of_Z (z : Z) : float :=
  SF2Prim (binary_normalize prec emax z 0 false).

(** [float(v)] for a number [v]. An [int] too large for a binary64 raises
    [OverflowError]. The callers test [isinstance] first, so the last case is
    never reached from them. *)
Definition py_float (v : value) : result float :=
  match v with
  | PyBool b => Ok (if b then 1%float else 0%float)
  | PyInt z =>
      let f := float_of_Z z in
      if is_infinity f
      then Raise (OverflowError "int too large to convert to float")
      else Ok f
  | PyFloat f => Ok f
  | _ => Raise (TypeError "float() argument must be a string or a real number")
  end.

(** ** The store item record *)

(** The dataclass performs no check of its fields: apart from the price every
    field holds whatever the raw payload holds. *)
Record StoreItem : Type := mkStoreItem {
  id : value;
  name : value;
  store_price : option float;
  icon_url : value;
  workshop_file_id : value;
  app_id : value;
  item_type : value;
  collection : value
}.

(** ** Price normalization *)

(** [_normalize_store_item] (scmm_client.py, 151-194). *)
Definition _normalize_store_item (raw : dict) : result StoreItem :=
  let id_ := dict_get raw "id" in
  let name := py_or (dict_get raw "name") (PyStr "Unknown") in
  raw_price <-
    match find is_number
            (map (dict_get raw) ["storePrice"; "price"; "usdPrice"; "finalPrice"]) with
    | Some val => (f <- py_float val ;; Ok (Some f))
    | None => Ok None
    end ;;
  let store_price :=
    match raw_price with
    | Some raw_price =>
        Some (if (50 <? raw_price)%float then (raw_price / 100)%float else raw_price)
    | None => None
    end in
  let icon_url :=
    py_or (py_or (py_or (dict_get raw "iconUrl") (dict_get raw "iconURL"))
                 (dict_get raw "imageUrl")) PyNone in
  let workshop_file_id := dict_get raw "workshopFileId" in
  let app_id := dict_get raw "appId" in
  let item_type := py_or (dict_get raw "itemType") PyNone in
  let item_collection := py_or (dict_get raw "itemCollection") PyNone in
  Ok (mkStoreItem id_ name store_price icon_url workshop_file_id app_id
        item_type item_collection).

(** [extract_store_price_from_details] (scmm_client.py, 335-346). *)
Definition extract_store_price_from_details (details : dict) : result (option float) :=
  let val := dict_get details "storePrice" in
  if negb (is_number val) then Ok None
  else
    v <- py_float val ;;
    Ok (Some (if (50 <? v)%float then (v / 100)%float else v)).

(** [_norm_price], local to [get_market_breakdown] (scmm_client.py, 401-406). *)
Definition _norm_price (val : value) : result (option float) :=
  if negb (is_number val) then Ok None
  else
    v <- py_float val ;;
    Ok (Some (if (50 <? v)%float then (v / 100)%float else v)).

(** The rule in the words of the specification: a value greater than 50 is
    taken to be in cents and divided by 100, any other is kept. *)
Definition normalized_price (v : float) : float :=
  if (50 <? v)%float then (v / 100)%float else v.

(** The payload keys [_normalize_store_item] reads the price from, in order. *)
Definition price_fields (raw : dict) : list value :=
  map (dict_get raw) ["storePrice"; "price"; "usdPrice"; "finalPrice"].

(** 50.01 as Python reads it: the nearest binary64. *)
Definition f50_01 : float := 0x1.90147ae147ae1p+5%float.

(** ** Market breakdown *)

(** The three venues a breakdown prices. *)
Inductive venue : Type := Steam | Skinport | CSDeals.

(** The [marketType] tags each venue is recognized by in the scan. *)
Definition venue_tags (v : venue) : list string :=
  match v with
  | Steam => ["SteamCommunityMarket"; "SteamMarket"]
  | Skinport => ["Skinport"]
  | CSDeals => ["CSDealsMarketplace"]
  end.

(** [v == s] for a string literal [s]. *)
Definition str_eq (v : value) (s : string) : bool :=
  match v with
  | PyStr t => String.eqb t s
  | _ => false
  end.

(** [v is False]. *)
Definition is_False (v : value) : bool :=
  match v with
  | PyBool false => true
  | _ => false
  end.

(** The three [nonlocal] variables of [scan]. *)
Record scan_state : Type := mkScan {
  scan_steam : option float;
  scan_skinport : option float;
  scan_csdeals : option float
}.

(** [cur is None or p < cur]. *)
Definition improves (cur : option float) (p : float) : bool :=
  match cur with
  | None => true
  | Some c => (p <? c)%float
  end.

(** One iteration of the loop of [scan] (scmm_client.py, 417-436). *)
Definition scan_entry (st : scan_state) (entry : value) : result scan_state :=
  match entry with
  | PyDict entry =>
      if is_False (dict_get entry "isAvailable") then Ok st
      else
        let mtype := dict_get entry "marketType" in
        p <- _norm_price (dict_get entry "price") ;;
        match p with
        | None => Ok st
        | Some p =>
            if str_eq mtype "SteamCommunityMarket" || str_eq mtype "SteamMarket" then
              Ok (if improves (scan_steam st) p
                  then mkScan (Some p) (scan_skinport st) (scan_csdeals st)
                  else st)
            else if str_eq mtype "Skinport" then
              Ok (if improves (scan_skinport st) p
                  then mkScan (scan_steam st) (Some p) (scan_csdeals st)
                  else st)
            else if str_eq mtype "CSDealsMarketplace" then
              Ok (if improves (scan_csdeals st) p
                  then mkScan (scan_steam st) (scan_skinport st) (Some p)
                  else st)
            else Ok st
        end
  | _ => Ok st
  end.

(** [scan(seq)] (scmm_client.py, 414-436). *)
Fixpoint scan (seq : list value) (st : scan_state) : result scan_state :=
  match seq with
  | [] => Ok st
  | entry :: rest => st' <- scan_entry st entry ;; scan rest st'
  end.

(** One iteration of [for key in ("buyPrices", "sellPrices")]
    (scmm_client.py, 438-441). *)
Definition scan_key (details : dict) (key : string) (st : scan_state)
  : result scan_state :=
  match dict_get details key with
  | PyList seq => scan seq st
  | _ => Ok st
  end.

Module Breakdown.
(** The dictionary [get_market_breakdown] returns, one field per key. *)
Record t : Type := mk {
  store_price : option float;
  steam_price : option float;
  steam_vs_store_pct : option float;
  skinport_price : option float;
  skinport_vs_steam_pct : option float;
  csdeals_price : option float;
  csdeals_vs_steam_pct : option float
}.

Definition price (v : venue) (bd : t) : option float :=
  match v with
  | Steam => steam_price bd
  | Skinport => skinport_price bd
  | CSDeals => csdeals_price bd
  end.
End Breakdown.

(** [_pct_vs_steam], local to [get_market_breakdown] (scmm_client.py, 449-452). *)
Definition _pct_vs_steam (steam_price price : option float) : option float :=
  match steam_price, price with
  | Some steam_price, Some price =>
      if (steam_price =? 0)%float then None
      else Some ((price - steam_price) / steam_price * 100)%float
  | _, _ => None
  end.

(** [get_market_breakdown] (scmm_client.py, 387-465). *)
Definition get_market_breakdown (details : dict) : result Breakdown.t :=
  store_price <- extract_store_price_from_details details ;;
  st <- scan_key details "buyPrices" (mkScan None None None) ;;
  st <- scan_key details "sellPrices" st ;;
  let steam_price := scan_steam st in
  let skinport_price := scan_skinport st in
  let csdeals_price := scan_csdeals st in
  let steam_vs_store_pct :=
    match store_price, steam_price with
    | Some store_price, Some steam_price =>
        if negb (store_price =? 0)%float
        then Some ((steam_price - store_price) / store_price * 100)%float
        else None
    | _, _ => None
    end in
  let skinport_vs_steam_pct := _pct_vs_steam steam_price skinport_price in
  let csdeals_vs_steam_pct := _pct_vs_steam steam_price csdeals_price in
  Ok (Breakdown.mk store_price steam_price steam_vs_store_pct
        skinport_price skinport_vs_steam_pct
        csdeals_price csdeals_vs_steam_pct).

(** The variable of [scan] that holds the price of a venue. *)
Definition state_price (v : venue) (st : scan_state) : option float :=
  match v with
  | Steam => scan_steam st
  | Skinport => scan_skinport st
  | CSDeals => scan_csdeals st
  end.

(** The update of one of the three variables by a price [p]. *)
Definition lower (cur : option float) (p : float) : option float :=
  if improves cur p then Some p else cur.

(** *** The selection in the words of the specification *)

(** The entries of the buy-price list followed by those of the sell-price
    list; a key that does not hold a list contributes nothing. *)
Definition entries_of (details : dict) (key : string) : list value :=
  match dict_get details key with
  | PyList seq => seq
  | _ => []
  end.

Definition price_entries (details : dict) : list value :=
  entries_of details "buyPrices" ++ entries_of details "sellPrices".

(** An entry is marked unavailable when its availability flag is [False]. *)
Definition marked_unavailable (entry : dict) : bool :=
  is_False (dict_get entry "isAvailable").

Definition has_tag (v : venue) (entry : dict) : bool :=
  existsb (str_eq (dict_get entry "marketType")) (venue_tags v).

(** An entry qualifies for a venue when it carries the venue's tag with a
    numeric price and is not marked unavailable. *)
Definition qualifies (v : venue) (entry : value) : bool :=
  match entry with
  | PyDict e =>
      negb (marked_unavailable e) && has_tag v e
      && is_number (dict_get e "price")
  | _ => false
  end.

(** The normalized price of an entry. *)
Definition entry_price (entry : value) : result (option float) :=
  match entry with
  | PyDict e => _norm_price (dict_get e "price")
  | _ => Ok None
  end.

(** Python's [min]: the first item, replaced by a later one only when that
    one is strictly less. *)
Definition py_min (ps : list float) : option float :=
  match ps with
  | [] => None
  | p :: rest =>
      Some (fold_left (fun m x => if (x <? m)%float then x else m) rest p)
  end.

(** *** A sample item detail document *)

Definition market_entry (tag : string) (price : value) (fields : dict) : value :=
  PyDict (("marketType", PyStr tag) :: ("price", price) :: fields).

Definition sample_details : dict :=
  [ ("name", PyStr "Tempered AK47");
    ("storePrice", PyInt 249);
    ("buyPrices",
      PyList [ market_entry "SteamCommunityMarket" (PyInt 310) [];
               market_entry "Skinport" (PyFloat 2.75) [("isAvailable", PyBool true)];
               market_entry "SteamCommunityMarket" (PyInt 120)
                 [("isAvailable", PyBool false)] ]);
    ("sellPrices",
      PyList [ market_entry "SteamMarket" (PyInt 295) [("isAvailable", PyNone)];
               market_entry "CSDealsMarketplace" (PyInt 305)
                 [("url", PyStr "https://cs.deals/item/1")];
               market_entry "Skinport" (PyStr "n/a") [] ]) ].

Definition sample_breakdown : Breakdown.t :=
  Eval vm_compute in
    match get_market_breakdown sample_details with
    | Ok bd => bd
    | Raise _ => Breakdown.mk None None None None None None None
    end.

(** ** Percent-encoding ([urllib.parse]) *)

Fixpoint mem_char (c : ascii) (s : string) : bool :=
  match s with
  | EmptyString => false
  | String d rest => Ascii.eqb c d || mem_char c rest
  end.

(** The characters [quote] never encodes: letters, digits and [_.-~]. *)
Definition always_safe (c : ascii) : bool :=
  let n := N_of_ascii c in
  ((48 <=? n) && (n <=? 57) || (65 <=? n) && (n <=? 90)
   || (97 <=? n) && (n <=? 122))%N
  || mem_char c "_.-~".

Definition hex_digit (n : N) : ascii :=
  if (n <? 10)%N then ascii_of_N (48 + n) else ascii_of_N (55 + n).

(** ["%XX"], in upper-case hexadecimal. *)
Definition percent_encode (c : ascii) : string :=
  let n := N_of_ascii c in
  String "%" (String (hex_digit (n / 16)) (String (hex_digit (n mod 16)) "")).

(** [quote(s, safe=safe)] on the UTF-8 bytes of [s]. *)
Fixpoint quote (safe : string) (s : string) : string :=
  match s with
  | EmptyString => EmptyString
  | String c rest =>
      ((if always_safe c || mem_char c safe then String c "" else percent_encode c)
       ++ quote safe rest)%string
  end.

(** [s.replace(old, new)] for single characters. *)
Fixpoint replace_char (old new : ascii) (s : string) : string :=
  match s with
  | EmptyString => EmptyString
  | String c rest =>
      String (if Ascii.eqb c old then new else c) (replace_char old new rest)
  end.

(** [quote_plus(s)]: [quote] when [s] has no space; otherwise [quote] with the
    space kept, then every space replaced by a plus sign. *)
Definition quote_plus (s : string) : string :=
  if negb (mem_char " " s) then quote "" s
  else replace_char " " "+" (quote " " s).

(** Percent-plus-encoding, character by character: a space becomes a plus
    sign, a safe character is kept, any other byte becomes ["%XX"]. *)
Fixpoint plus_encode (s : string) : string :=
  match s with
  | EmptyString => EmptyString
  | String c rest =>
      ((if Ascii.eqb c " " then "+"
        else if always_safe c then String c ""
        else percent_encode c) ++ plus_encode rest)%string
  end.

(** ** Marketplace URLs *)

Module MarketUrls.
(** The dictionary [extract_market_urls] returns, one field per key. *)
Record t : Type := mk {
  steam : option string;
  skinport : option string;
  csdeals : option string
}.
End MarketUrls.

(** [isinstance(v, str) and v], as a value. *)
Definition nonempty_str (v : value) : option string :=
  match v with
  | PyStr s => if (s =? "") then None else Some s
  | _ => None
  end.

(** One iteration of the inner loop of step 1 (scmm_client.py, 505-527). *)
Definition url_entry (urls : MarketUrls.t) (entry : value) : MarketUrls.t :=
  match entry with
  | PyDict entry =>
      let mtype := dict_get entry "marketType" in
      let url := py_or (py_or (dict_get entry "url") (dict_get entry "link"))
                       (dict_get entry "href") in
      match nonempty_str url with
      | None => urls
      | Some url =>
          if str_eq mtype "SteamCommunityMarket" || str_eq mtype "SteamMarket" then
            match MarketUrls.steam urls with
            | None => MarketUrls.mk (Some url) (MarketUrls.skinport urls)
                        (MarketUrls.csdeals urls)
            | Some _ => urls
            end
          else if str_eq mtype "Skinport" then
            match MarketUrls.skinport urls with
            | None => MarketUrls.mk (MarketUrls.steam urls) (Some url)
                        (MarketUrls.csdeals urls)
            | Some _ => urls
            end
          else urls
      end
  | _ => urls
  end.

(** The inner [for field in candidates] of step 2: the first candidate field
    holding a non-empty string. *)
Fixpoint first_url (details : dict) (candidates : list string) : option string :=
  match candidates with
  | [] => None
  | field :: rest =>
      match nonempty_str (dict_get details field) with
      | Some val => Some val
      | None => first_url details rest
      end
  end.

Definition or_else {A : Type} (cur fallback : option A) : option A :=
  match cur with
  | Some _ => cur
  | None => fallback
  end.

(** [extract_market_urls] (scmm_client.py, 473-565). *)
Definition extract_market_urls (details : dict) : MarketUrls.t :=
  let urls := MarketUrls.mk None None None in
  (* 1) price entries, Steam and Skinport only *)
  let urls :=
    fold_left
      (fun urls key =>
         match dict_get details key with
         | PyList seq => fold_left url_entry seq urls
         | _ => urls
         end)
      ["buyPrices"; "sellPrices"] urls in
  (* 2) top-level fallback keys, Steam and Skinport only *)
  let urls :=
    MarketUrls.mk
      (or_else (MarketUrls.steam urls)
         (first_url details ["steamMarketUrl"; "steamMarketURL"; "steamUrl"]))
      (or_else (MarketUrls.skinport urls)
         (first_url details ["skinportUrl"; "skinPortUrl"]))
      (MarketUrls.csdeals urls) in
  (* 3) URLs built from the item name *)
  match nonempty_str (dict_get details "name") with
  | Some name =>
      let safe_name := quote "" name in
      MarketUrls.mk
        (or_else (MarketUrls.steam urls)
           (Some ("https://steamcommunity.com/market/listings/252490/"
                  ++ safe_name)%string))
        (or_else (MarketUrls.skinport urls)
           (Some ("https://skinport.com/rust?search=" ++ safe_name)%string))
        (Some ("https://cs.deals/new/market"
               ++ "?game=rust&sort=newest&sort_desc=1&exact_match=0&name="
               ++ quote_plus name)%string)
  | None => urls
  end.

(** ** Strings *)

Definition string_of_Z (z : Z) : string := NilZero.string_of_int (Z.to_int z).

Definition string_of_bytes (bs : list N) : string :=
  string_of_list_ascii (map ascii_of_N bs).

Definition string_rev (s : string) : string :=
  string_of_list_ascii (rev (list_ascii_of_string s)).

(** [needle in hay]. *)
Fixpoint contains (needle hay : string) : bool :=
  String.prefix needle hay
  || match hay with
     | EmptyString => false
     | String _ rest => contains needle rest
     end.

(** [s.split(c, 1)[0]]: the part of [s] before the first [c]. *)
Fixpoint before_char (c : ascii) (s : string) : string :=
  match s with
  | EmptyString => EmptyString
  | String d rest => if Ascii.eqb d c then EmptyString else String d (before_char c rest)
  end.

(** The characters [str.isspace] accepts, each as its UTF-8 bytes: U+0009 to
    U+000D, U+001C to U+0020, U+0085, U+00A0, U+1680, U+2000 to U+200A,
    U+2028, U+2029, U+202F, U+205F and U+3000. *)
Definition whitespace : list string :=
  Eval vm_compute in
  map string_of_bytes
    [ [9]; [10]; [11]; [12]; [13]; [28]; [29]; [30]; [31]; [32];
      [194; 133]; [194; 160]; [225; 154; 128];
      [226; 128; 128]; [226; 128; 129]; [226; 128; 130]; [226; 128; 131];
      [226; 128; 132]; [226; 128; 133]; [226; 128; 134]; [226; 128; 135];
      [226; 128; 136]; [226; 128; 137]; [226; 128; 138];
      [226; 128; 168]; [226; 128; 169]; [226; 128; 175];
      [226; 129; 159]; [227; 128; 128] ]%N.

Definition mem_string (s : string) (l : list string) : bool :=
  existsb (String.eqb s) l.

(** Drop from the front of [s] every leading sequence that is in [ws]; the
    sequences are one to three bytes long. *)
Fixpoint lstrip_by (ws : list string) (s : string) : string :=
  match s with
  | EmptyString => EmptyString
  | String a r =>
      if mem_string (String a "") ws then lstrip_by ws r
      else
        match r with
        | EmptyString => s
        | String b r2 =>
            if mem_string (String a (String b "")) ws then lstrip_by ws r2
            else
              match r2 with
              | EmptyString => s
              | String c r3 =>
                  if mem_string (String a (String b (String c ""))) ws
                  then lstrip_by ws r3
                  else s
              end
        end
  end.

Definition lstrip (s : string) : string := lstrip_by whitespace s.

Definition rstrip (s : string) : string :=
  string_rev (lstrip_by (map string_rev whitespace) (string_rev s)).

(** [s.strip()]. *)
Definition py_strip (s : string) : string := rstrip (lstrip s).

(** A string that is a concatenation of members of [ws]. *)
Inductive made_of (ws : list string) : string -> Prop :=
| made_of_nil : made_of ws ""
| made_of_cons (w s : string) :
    In w ws -> made_of ws s -> made_of ws (w ++ s)%string.

(** A string that is empty or made of whitespace characters only. *)
Definition only_whitespace (s : string) : Prop := made_of whitespace s.

(** ** Calendar dates *)

Record date : Type := mkDate { year : Z; month : Z; day : Z }.

Fixpoint zeros (n : nat) : string :=
  match n with
  | O => EmptyString
  | S n => String "0" (zeros n)
  end.

(** ["%0<width>d"] for a number that is not negative. *)
Definition zero_pad (width : nat) (z : Z) : string :=
  let s := string_of_Z z in
  (zeros (width - String.length s) ++ s)%string.

(** [d.isoformat()]: ["YYYY-MM-DD"]. *)
Definition isoformat (d : date) : string :=
  (zero_pad 4 (year d) ++ "-" ++ zero_pad 2 (month d) ++ "-" ++ zero_pad 2 (day d))%string.

(** ** The network *)

(** What a GET of [_http_get_json] meets in the HTTP client: a transport
    failure ([httpx.RequestError]), a status that [raise_for_status] refuses,
    any other exception, or a response whose body decodes as JSON or does
    not. *)
Inductive http_outcome : Type :=
| HttpRequestError (text : string)
| HttpStatusError (status : Z) (request_url : string)
| HttpOtherError (type_name text : string)
| HttpBody (body : option value).

(** A coroutine of the client: it reads the log of the URLs requested so far
    and returns its result with the log extended by its own requests. *)
Definition io (A : Type) : Type := list string -> result A * list string.

Definition io_ret {A : Type} (a : A) : io A := fun log => (Ok a, log).

Definition io_raise {A : Type} (e : exn) : io A := fun log => (Raise e, log).

Definition io_bind {A B : Type} (m : io A) (k : A -> io B) : io B :=
  fun log =>
    match m log with
    | (Ok a, log') => k a log'
    | (Raise e, log') => (Raise e, log')
    end.

Definition io_lift {A : Type} (r : result A) : io A := fun log => (r, log).

Notation "x <~ m ;; k" := (io_bind m (fun x => k))
  (at level 61, m at next level, right associativity).

Definition BASE_URL : string := "https://rust.scmm.app".
Definition API_BASE : string := (BASE_URL ++ "/api")%string.

Definition type_name (v : value) : string :=
  match v with
  | PyNone => "NoneType"
  | PyBool _ => "bool"
  | PyInt _ => "int"
  | PyFloat _ => "float"
  | PyStr _ => "str"
  | PyList _ => "list"
  | PyDict _ => "dict"
  end.

(** [sorted(l, key=key)]: a stable sort by insertion, each item placed
    before the first one of a strictly greater key. Python's sort is stable
    too, and a stable sort has one result. *)
Fixpoint insert_by {A : Type} (key : A -> string) (x : A) (l : list A) : list A :=
  match l with
  | [] => [x]
  | y :: rest =>
      if String.ltb (key x) (key y) then x :: y :: rest
      else y :: insert_by key x rest
  end.

Definition sorted {A : Type} (key : A -> string) (l : list A) : list A :=
  fold_left (fun acc x => insert_by key x acc) l [].

(** [[_normalize_store_item(raw) for raw in raw_items if isinstance(raw, dict)]]. *)
Fixpoint normalize_items (raw_items : list value) : result (list StoreItem) :=
  match raw_items with
  | [] => Ok []
  | PyDict raw :: rest =>
      item <- _normalize_store_item raw ;;
      items <- normalize_items rest ;;
      Ok (item :: items)
  | _ :: rest => normalize_items rest
  end.

Section Network.

(** The remote service: the outcome of a GET of each URL. *)
Variable http : string -> http_outcome.

(** [repr] of a float, a list or a dict, which [str()] falls back on. *)
Variable repr_other : value -> string.

(** [str(v)]. *)
Definition py_str (v : value) : string :=
  match v with
  | PyStr s => s
  | PyInt z => string_of_Z z
  | PyBool true => "True"
  | PyBool false => "False"
  | PyNone => "None"
  | _ => repr_other v
  end.

(** [_http_get_json] (scmm_client.py, 95-127). *)
Definition _http_get_json (url : string) : io value :=
  fun log =>
    (match http url with
     | HttpRequestError text =>
         Raise (RuntimeError ("Network error talking to SCMM: " ++ text)%string)
     | HttpStatusError status request_url =>
         Raise (RuntimeError ("SCMM responded with HTTP " ++ string_of_Z status
                              ++ " for " ++ request_url)%string)
     | HttpOtherError type_name text =>
         Raise (RuntimeError ("Unexpected error calling SCMM: " ++ type_name
                              ++ ": " ++ text)%string)
     | HttpBody None => Raise (RuntimeError "SCMM returned invalid JSON")
     | HttpBody (Some data) => Ok data
     end, log ++ [url]).

(** [fetch_store_list_raw] (scmm_client.py, 213-231). *)
Definition fetch_store_list_raw : io (list value) :=
  let url := (API_BASE ++ "/store")%string in
  data <~ _http_get_json url ;;
  match data with
  | PyList data => io_ret data
  | PyDict data =>
      match dict_get data "items" with
      | PyList items => io_ret items
      | _ => io_ret []
      end
  | _ => io_ret []
  end.

(** [fetch_store_items_by_id] (scmm_client.py, 234-261). *)
Definition fetch_store_items_by_id (store_id : string) : io (list StoreItem) :=
  let url := (API_BASE ++ "/store/" ++ store_id)%string in
  data <~ _http_get_json url ;;
  match data with
  | PyDict data =>
      match dict_get data "items" with
      | PyList raw_items => io_lift (normalize_items raw_items)
      | _ => io_ret []
      end
  | _ => io_ret []
  end.

(** The loop that collects [matches] (scmm_client.py, 290-297); a store
    that is not a dict has no [get]. *)
Fixpoint matching_stores (stores : list value) (target_str : string)
  : result (list dict) :=
  match stores with
  | [] => Ok []
  | store :: rest =>
      match store with
      | PyDict store =>
          matches <- matching_stores rest target_str ;;
          match dict_get store "start" with
          | PyStr start =>
              let start_date_str := before_char "T" start in
              if (start_date_str =? target_str)%string
              then Ok (store :: matches)
              else Ok matches
          | _ => Ok matches
          end
      | _ =>
          Raise (AttributeError ("'" ++ type_name store
                                 ++ "' object has no attribute 'get'")%string)
      end
  end.

(** The sort key of line 303: [str(s.get("start") or "")]. *)
Definition start_key (s : dict) : string :=
  py_str (py_or (dict_get s "start") (PyStr "")).

(** [sorted(matches, key=...)[-1]] (scmm_client.py, 303). *)
Definition latest_store (matches : list dict) : dict :=
  last (sorted start_key matches) [].

(** [fetch_store_items_for_date] (scmm_client.py, 264-309). *)
Definition fetch_store_items_for_date (target_date : date)
  : io (list StoreItem * option string) :=
  stores <~ fetch_store_list_raw ;;
  match stores with
  | [] => io_ret ([], None)
  | _ =>
      let target_str := isoformat target_date in
      matches <~ io_lift (matching_stores stores target_str) ;;
      match matches with
      | [] => io_ret ([], None)
      | _ =>
          let chosen := latest_store matches in
          let store_id := dict_get chosen "id" in
          if negb (truthy store_id) then io_ret ([], None)
          else
            items <~ fetch_store_items_by_id (py_str store_id) ;;
            io_ret (items, Some (py_str store_id))
      end
  end.

(** [fetch_item_details_by_name] (scmm_client.py, 349-384). *)
Definition fetch_item_details_by_name (name : string) : io dict :=
  let clean := py_strip (if (name =? "")%string then "" else name) in
  if (clean =? "")%string then io_raise (RuntimeError "Item name is required")
  else
    let safe := quote "" clean in
    let url := (API_BASE ++ "/item/" ++ safe)%string in
    fun log =>
      match _http_get_json url log with
      | (Raise (RuntimeError msg), log') =>
          if contains "HTTP 404" msg
          then (Raise (RuntimeError
                         ("No item found on SCMM matching '" ++ clean ++ "'. "
                          ++ "Check the spelling or try a different name.")%string),
                log')
          else (Raise (RuntimeError msg), log')
      | (Raise e, log') => (Raise e, log')
      | (Ok details, log') =>
          match details with
          | PyDict details => (Ok details, log')
          | _ => (Raise (RuntimeError "SCMM item details response was not an object"),
                  log')
          end
      end.

End Network.

(** *** The store of a date in the words of the specification *)

(** The start timestamp of a store. *)
Definition start_of (s : dict) : string :=
  match dict_get s "start" with
  | PyStr start => start
  | _ => ""
  end.

(** The store starts on the date [target_str]: the part of its start
    timestamp before the ["T"] is [target_str]. *)
Definition on_date (target_str : string) (store : value) : bool :=
  match store with
  | PyDict s =>
      match dict_get s "start" with
      | PyStr start => (before_char "T" start =? target_str)%string
      | _ => false
      end
  | _ => false
  end.

(** *** A sample service *)

Definition store_entry (start id : string) : dict :=
  [("id", PyStr id); ("start", PyStr start)].

Definition sample_stores : list value :=
  [ PyDict (store_entry "2025-11-06T10:00:00Z" "2025-11-06-1000");
    PyDict (store_entry "2025-11-06T18:00:00Z" "2025-11-06-1800");
    PyDict (store_entry "2025-11-13T18:00:00Z" "2025-11-13-1800") ].

Definition sample_http (url : string) : http_outcome :=
  if (url =? API_BASE ++ "/store")%string then
    HttpBody (Some (PyList sample_stores))
  else if (url =? API_BASE ++ "/store/2025-11-06-1800")%string then
    HttpBody (Some (PyDict [("items",
                             PyList [PyDict [("name", PyStr "Tempered AK47");
                                             ("price", PyInt 249)]])]))
  else if (url =? API_BASE ++ "/item/Tempered%20AK47")%string then
    HttpBody (Some (PyDict sample_details))
  else if (url =? API_BASE ++ "/item/Broken")%string then
    HttpStatusError 500 url
  else HttpStatusError 404 url.

Definition sample_repr (v : value) : string := "<object>".

(** ** Number conversion and formatting *)

(** [int(v)] for a number [v]: a float is truncated toward zero; an infinity
    or a NaN raises. *)
Definition py_int (v : value) : result Z :=
  match v with
  | PyBool b => Ok (if b then 1 else 0)%Z
  | PyInt z => Ok z
  | PyFloat f =>
      match Prim2SF f with
      | S754_zero _ => Ok 0%Z
      | S754_infinity _ =>
          Raise (OverflowError "cannot convert float infinity to integer")
      | S754_nan => Raise (ValueError "cannot convert float NaN to integer")
      | S754_finite s m e =>
          let n := (if 0 <=? e then Z.pos m * 2 ^ e else Z.pos m / 2 ^ (- e))%Z in
          Ok (if s then - n else n)%Z
      end
  | _ => Raise (TypeError "int() argument must be a string or a real number")
  end.

(** The value of an [int] or [bool] in arithmetic. *)
Definition int_value (v : value) : Z :=
  match v with
  | PyBool b => if b then 1 else 0
  | PyInt z => z
  | _ => 0
  end.

(** [a / b] on integers: the binary64 nearest to the quotient (ties to
    even), computed from a quotient of at least 65 bits and a sticky bit. *)
Definition int_truediv (a b : Z) : result float :=
  if (b =? 0)%Z then Raise (ZeroDivisionError "division by zero")
  else
    let negate := xorb (a <? 0)%Z (b <? 0)%Z in
    let a := Z.abs a in
    let b := Z.abs b in
    if (a =? 0)%Z then Ok (if negate then (-0)%float else 0%float)
    else
      let k := Z.max 0 (Z.log2 b - Z.log2 a + 66) in
      let num := (a * 2 ^ k)%Z in
      let q := (num / b)%Z in
      let sticky := (if num mod b =? 0 then 0 else 1)%Z in
      let m := (2 * q + sticky)%Z in
      let f := SF2Prim (binary_normalize prec emax (if negate then - m else m)
                          (- k - 1) false) in
      if is_infinity f
      then Raise (OverflowError "integer division result too large for a float")
      else Ok f.

(** [n] rounded to the nearest multiple of [den], ties to even, as a count of
    [den]s. *)
Definition div_half_even (num den : Z) : Z :=
  let q := (num / den)%Z in
  let r := (num mod den)%Z in
  if (2 * r <? den)%Z then q
  else if (den <? 2 * r)%Z then (q + 1)%Z
  else if Z.even q then q else (q + 1)%Z.

(** The digits of [n], a count of [10^-d], with [d] decimals. *)
Definition fixed_point (d : nat) (n : Z) : string :=
  let scale := (10 ^ Z.of_nat d)%Z in
  (string_of_Z (n / scale)
   ++ match d with
      | O => ""
      | _ => "." ++ zero_pad d (n mod scale)
      end)%string.

(** [f"{x:.<d>f}"]: the exact value of [x] rounded to [d] decimals, ties to
    even. *)
Definition format_f (d : nat) (x : float) : string :=
  match Prim2SF x with
  | S754_nan => "nan"
  | S754_infinity s => if s then "-inf" else "inf"
  | S754_zero s => ((if s then "-" else "") ++ fixed_point d 0)%string
  | S754_finite s m e =>
      let scaled := (Z.pos m * 10 ^ Z.of_nat d)%Z in
      let n := (if 0 <=? e then scaled * 2 ^ e
                else div_half_even scaled (2 ^ (- e)))%Z in
      ((if s then "-" else "") ++ fixed_point d n)%string
  end.

Fixpoint group3 (fuel : nat) (n : Z) : string :=
  match fuel with
  | O => string_of_Z n
  | S fuel =>
      if (n <? 1000)%Z then string_of_Z n
      else (group3 fuel (n / 1000) ++ "," ++ zero_pad 3 (n mod 1000))%string
  end.

(** [f"{z:,}"]: the decimal digits in groups of three. *)
Definition format_comma (z : Z) : string :=
  ((if z <? 0 then "-" else "")%Z
   ++ group3 (S (Z.to_nat (Z.log2 (Z.abs z)))) (Z.abs z))%string.

Definition newline : string := String "010" "".

(** ** The embed formatter (embeds.py) *)

(** [_render_market_lines] (embeds.py, 28-106). *)
Definition _render_market_lines (details : option dict) (include_third_party : bool)
  : result string :=
  match details with
  | None | Some [] => Ok ("**Store:** Unknown" ++ newline ++ "**Steam Market:** No data")%string
  | Some details =>
      bd <- get_market_breakdown details ;;
      let store := Breakdown.store_price bd in
      let steam := Breakdown.steam_price bd in
      let steam_pct := Breakdown.steam_vs_store_pct bd in
      let skinport := Breakdown.skinport_price bd in
      let skinport_pct := Breakdown.skinport_vs_steam_pct bd in
      let csdeals := Breakdown.csdeals_price bd in
      let csdeals_pct := Breakdown.csdeals_vs_steam_pct bd in
      let lines : list string := [] in
      (* Store *)
      let lines :=
        match store with
        | Some store => lines ++ [("**Store:** $" ++ format_f 2 store)%string]
        | None => lines ++ ["**Store:** Unknown"]
        end in
      (* Steam vs Store *)
      let lines :=
        match steam with
        | Some steam =>
            match steam_pct with
            | Some steam_pct =>
                let sign := if (0 <=? steam_pct)%float then "+" else "-" in
                let emoji := if (0 <=? steam_pct)%float then "🟢" else "🔴" in
                lines ++ [("**Steam Market:** $" ++ format_f 2 steam ++ " "
                           ++ "(" ++ emoji ++ " " ++ sign
                           ++ format_f 1 (abs steam_pct) ++ "% vs store)")%string]
            | None => lines ++ [("**Steam Market:** $" ++ format_f 2 steam)%string]
            end
        | None => lines ++ ["**Steam Market:** No data"]
        end in
      (* Skinport / CS.Deals vs Steam *)
      let lines :=
        if include_third_party then
          let lines :=
            match skinport with
            | Some skinport =>
                match skinport_pct with
                | Some skinport_pct =>
                    let sign := if (0 <=? skinport_pct)%float then "+" else "-" in
                    let emoji := if (0 <=? skinport_pct)%float then "🟢" else "🔴" in
                    lines ++ [("**Skinport:** $" ++ format_f 2 skinport ++ " "
                               ++ "(" ++ emoji ++ " " ++ sign
                               ++ format_f 1 (abs skinport_pct) ++ "% vs Steam)")%string]
                | None => lines ++ [("**Skinport:** $" ++ format_f 2 skinport)%string]
                end
            | None => lines ++ ["**Skinport:** No listings"]
            end in
          match csdeals with
          | Some csdeals =>
              match csdeals_pct with
              | Some csdeals_pct =>
                  let sign := if (0 <=? csdeals_pct)%float then "+" else "-" in
                  let emoji := if (0 <=? csdeals_pct)%float then "🟢" else "🔴" in
                  lines ++ [("**CS.Deals:** $" ++ format_f 2 csdeals ++ " "
                             ++ "(" ++ emoji ++ " " ++ sign
                             ++ format_f 1 (abs csdeals_pct) ++ "% vs Steam)")%string]
              | None => lines ++ [("**CS.Deals:** $" ++ format_f 2 csdeals)%string]
              end
          | None => lines ++ ["**CS.Deals:** No listings"]
          end
        else lines in
      Ok (String.concat newline lines)
  end.

(** The comprehension of the component parts (embeds.py, 253-257). *)
Fixpoint component_parts (items : dict) : result (list string) :=
  match items with
  | [] => Ok []
  | (k, v) :: rest =>
      if is_number v then
        n <- py_int v ;;
        parts <- component_parts rest ;;
        Ok ((string_of_Z n ++ "x " ++ k)%string :: parts)
      else component_parts rest
  end.

(** A count line of the stats block: [f"{label}**{int(v):,}**"] when [v] is a
    number. *)
Definition count_line (label : string) (v : value) : result (list string) :=
  if is_number v then
    n <- py_int v ;;
    Ok [(label ++ "**" ++ format_comma n ++ "**")%string]
  else Ok [].

(** [_build_stats_block] (embeds.py, 180-261). *)
Definition _build_stats_block (details : option dict) : result (option string) :=
  match details with
  | None | Some [] => Ok None
  | Some details =>
      (* Released date + store price *)
      let released := dict_get details "timeAccepted" in
      let store_price := dict_get details "storePrice" in
      store_price <-
        (if is_number store_price then
           store_price <- py_float store_price ;;
           Ok (Some (if (50 <? store_price)%float
                     then (store_price / 100)%float else store_price))
         else Ok None) ;;
      let date_txt :=
        match nonempty_str released with
        | Some released => Some (before_char "T" released)
        | None => None
        end in
      let date_given :=
        match date_txt with
        | Some d => negb (d =? "")%string
        | None => false
        end in
      let lines1 :=
        if date_given || match store_price with Some _ => true | None => false end then
          let price_part :=
            match store_price with
            | Some store_price => ("for **$" ++ format_f 2 store_price ++ "**")%string
            | None => ""
            end in
          match date_txt with
          | Some d =>
              if negb (d =? "")%string
              then [py_strip ("🛒 Released on **" ++ d ++ "** " ++ price_part)%string]
              else if negb (price_part =? "")%string
                   then [("🛒 Store price " ++ price_part)%string]
                   else []
          | None =>
              if negb (price_part =? "")%string
              then [("🛒 Store price " ++ price_part)%string]
              else []
          end
        else [] in
      (* Supply *)
      let supply_est := py_or (dict_get details "supplyTotalEstimated")
                              (dict_get details "supplyTotalOwnersEstimated") in
      lines2 <- count_line "📦 Estimated supply: " supply_est ;;
      (* Subscribers *)
      let subs := py_or (dict_get details "subscriptionsCurrent")
                        (dict_get details "subscriptionsLifetime") in
      lines3 <- count_line "👥 Workshop subscribers: " subs ;;
      (* Votes + rating *)
      let votes_up := dict_get details "votesUp" in
      let votes_down := dict_get details "votesDown" in
      lines4 <-
        (if is_int votes_up && is_int votes_down then
           let total_votes := (int_value votes_up + int_value votes_down)%Z in
           if (0 <? total_votes)%Z then
             q <- int_truediv (int_value votes_up) total_votes ;;
             let ratio := (q * 100)%float in
             Ok [("👍 Votes: **" ++ format_comma total_votes ++ "** ("
                  ++ format_f 0 ratio ++ "% positive)")%string]
           else Ok []
         else Ok []) ;;
      (* Favourites *)
      let favs := py_or (dict_get details "favouritedCurrent")
                        (dict_get details "favouritedLifetime") in
      lines5 <- count_line "⭐ Favourited: " favs ;;
      (* Views *)
      let views := dict_get details "views" in
      lines6 <- count_line "👀 Workshop views: " views ;;
      (* Breaks into components *)
      let components := dict_get details "breaksIntoComponents" in
      lines7 <-
        match components with
        | PyDict ((_ :: _) as components) =>
            parts <- component_parts components ;;
            match parts with
            | [] => Ok []
            | _ => Ok [("🪓 Breaks into " ++ String.concat ", " parts)%string]
            end
        | _ => Ok []
        end ;;
      let lines := lines1 ++ lines2 ++ lines3 ++ lines4 ++ lines5 ++ lines6 ++ lines7 in
      match lines with
      | [] => Ok None
      | _ => Ok (Some (String.concat newline lines))
      end
  end.

(** *** The price lines in the words of the specification *)

(** The colored indicator and the signed percentage of a delta. *)
Definition delta_note (pct : float) (against : string) : string :=
  (" (" ++ (if (0 <=? pct)%float then "🟢" else "🔴") ++ " "
   ++ (if (0 <=? pct)%float then "+" else "-")
   ++ format_f 1 (abs pct) ++ "% vs " ++ against ++ ")")%string.

(** The line of a price: the label, then the price with the note of its
    delta when there is one, or the sentinel when the price is absent. *)
Definition price_line (label sentinel against : string) (price pct : option float)
  : string :=
  match price with
  | None => (label ++ sentinel)%string
  | Some p =>
      (label ++ "$" ++ format_f 2 p
       ++ match pct with
          | Some q => delta_note q against
          | None => ""
          end)%string
  end.

Definition store_line (bd : Breakdown.t) : string :=
  price_line "**Store:** " "Unknown" "" (Breakdown.store_price bd) None.

Definition steam_line (bd : Breakdown.t) : string :=
  price_line "**Steam Market:** " "No data" "store"
    (Breakdown.steam_price bd) (Breakdown.steam_vs_store_pct bd).

Definition skinport_line (bd : Breakdown.t) : string :=
  price_line "**Skinport:** " "No listings" "Steam"
    (Breakdown.skinport_price bd) (Breakdown.skinport_vs_steam_pct bd).

Definition csdeals_line (bd : Breakdown.t) : string :=
  price_line "**CS.Deals:** " "No listings" "Steam"
    (Breakdown.csdeals_price bd) (Breakdown.csdeals_vs_steam_pct bd).

(** A sample document for the stats block. *)
Definition sample_stats_details : dict :=
  [ ("timeAccepted", PyStr "2021-03-04T17:00:00Z");
    ("storePrice", PyInt 249);
    ("supplyTotalEstimated", PyInt 123456);
    ("subscriptionsCurrent", PyFloat 1500.5);
    ("votesUp", PyInt 950);
    ("votesDown", PyInt 50);
    ("views", PyInt 1000000);
    ("breaksIntoComponents",
      PyDict [("Cloth", PyInt 1); ("Metal", PyFloat 2); ("x", PyStr "y")]) ].

(** The text of the price block with nothing known. *)
Definition no_price_data : string :=
  ("**Store:** Unknown" ++ newline ++ "**Steam Market:** No data")%string.

(** The breakdown with every field absent. *)
Definition empty_breakdown : Breakdown.t :=
  Breakdown.mk None None None None None None None.

(** [float(v)] does not raise when [v] is a number. *)
Definition converts (v : value) : Prop :=
  is_number v = true -> exists f, py_float v = Ok f.


(** ** The rest of the client (scmm_client.py) *)

(** [quote(v, safe="")] for any value: [quote] encodes a string and hands
    anything else to [quote_from_bytes], which accepts bytes only. *)
Definition py_quote (v : value) : result string :=
  match v with
  | PyStr s => Ok (quote "" s)
  | _ => Raise (TypeError "quote_from_bytes() expected bytes")
  end.

Section Client.

Variable http : string -> http_outcome.



(** [fetch_item_details_for_store_item] (scmm_client.py, 317-332). *)
Definition fetch_item_details_for_store_item (item : StoreItem) : io dict :=
  if negb (truthy (name item))
  then io_raise (RuntimeError "Item has no name for detail lookup")
  else
    safe <~ io_lift (py_quote (name item)) ;;
    let url := (API_BASE ++ "/item/" ++ safe)%string in
    details <~ _http_get_json http url ;;
    match details with
    | PyDict details => io_ret details
    | _ => io_raise (RuntimeError "SCMM item details response was not an object")
    end.

End Client.

(** *** The resolution of a market URL, step by step *)

(** The URL a price entry offers for a venue: the entry carries the venue's
    tag and its first truthy field of [url], [link], [href] is a non-empty
    string. *)
Definition entry_url (v : venue) (entry : value) : option string :=
  match entry with
  | PyDict e =>
      if has_tag v e
      then nonempty_str (py_or (py_or (dict_get e "url") (dict_get e "link"))
                               (dict_get e "href"))
      else None
  | _ => None
  end.

(** The first result that [f] gives along a list. *)
Fixpoint first_some {A B : Type} (f : A -> option B) (l : list A) : option B :=
  match l with
  | [] => None
  | x :: rest =>
      match f x with
      | Some y => Some y
      | None => first_some f rest
      end
  end.

(** The URL built from the item name, when the name is a non-empty string. *)
Definition name_url (prefix : string) (details : dict) : option string :=
  match nonempty_str (dict_get details "name") with
  | Some n => Some (prefix ++ quote "" n)%string
  | None => None
  end.

(** Every character of [s] satisfies [p]. *)
Fixpoint string_forall (p : ascii -> bool) (s : string) : bool :=
  match s with
  | EmptyString => true
  | String c rest => p c && string_forall p rest
  end.

(** The value of a hexadecimal digit. *)
Definition hex_value (c : ascii) : N :=
  let n := N_of_ascii c in
  if (n <? 58)%N then (n - 48)%N else (n - 55)%N.

(** The reading of a percent-encoded string: ["%XY"] is the byte of
    hexadecimal digits [X] and [Y], a plus sign is a space when [plus] is
    set, and any other character is itself. *)
Fixpoint percent_decode (plus : bool) (s : string) : string :=
  match s with
  | EmptyString => EmptyString
  | String c rest =>
      if Ascii.eqb c "%" then
        match rest with
        | String x (String y rest') =>
            String (ascii_of_N (16 * hex_value x + hex_value y))
                   (percent_decode plus rest')
        | _ => String c (percent_decode plus rest)
        end
      else if plus && Ascii.eqb c "+" then String " " (percent_decode plus rest)
      else String c (percent_decode plus rest)
  end.

(** The URL of a venue in the result of [extract_market_urls]. *)
Definition market_url (v : venue) (urls : MarketUrls.t) : option string :=
  match v with
  | Steam => MarketUrls.steam urls
  | Skinport => MarketUrls.skinport urls
  | CSDeals => MarketUrls.csdeals urls
  end.

(** The characters of a percent-encoded string: the unreserved ones and the
    percent sign. *)
Definition url_char (c : ascii) : bool := always_safe c || Ascii.eqb c "%".

(** The same with the plus sign, which [quote_plus] writes for a space. *)
Definition url_plus_char (c : ascii) : bool := url_char c || Ascii.eqb c "+".

(** An integer that [float()] refuses: its nearest binary64 is infinite. *)
Definition overflows (v : value) : bool :=
  match v with
  | PyInt z => is_infinity (float_of_Z z)
  | _ => false
  end.

(** A price entry whose price the scan would convert and [float()] refuses:
    a dict that is not marked unavailable and whose price overflows. *)
Definition breaks_scan (entry : value) : bool :=
  match entry with
  | PyDict e => negb (marked_unavailable e) && overflows (dict_get e "price")
  | _ => false
  end.

(** The exception of such a conversion. *)
Definition float_overflow : exn :=
  OverflowError "int too large to convert to float".




(** [s] begins with a member of [ws] of one, two or three characters. *)
Definition starts_with_any (ws : list string) (s : string) : bool :=
  match s with
  | EmptyString => false
  | String a r =>
      mem_string (String a "") ws
      || match r with
         | EmptyString => false
         | String b r2 =>
             mem_string (String a (String b "")) ws
             || match r2 with
                | EmptyString => false
                | String c _ => mem_string (String a (String b (String c ""))) ws
                end
         end
  end.

(** ** Discord objects *)

(** The embeds and views of the Discord library are represented by what the
    builders put in them: an embed by the arguments of its constructor and of
    its setters, a view by its link buttons in the order they were added. *)
Inductive Color : Type := dark_orange | blurple | red | orange.

Record EmbedField : Type := mkField {
  field_name : string;
  field_value : string;
  inline : bool
}.

Record Embed : Type := mkEmbed {
  title : value;
  description : string;
  color : Color;
  image : option value;
  thumbnail : option value;
  fields : list EmbedField;
  footer : option string
}.

(** [embed.set_image(url=u)]. *)
Definition set_image (e : Embed) (u : value) : Embed :=
  mkEmbed (title e) (description e) (color e) (Some u) (thumbnail e) (fields e)
    (footer e).

(** [embed.set_thumbnail(url=u)]. *)
Definition set_thumbnail (e : Embed) (u : value) : Embed :=
  mkEmbed (title e) (description e) (color e) (image e) (Some u) (fields e)
    (footer e).

(** [embed.add_field(name=n, value=v, inline=i)]. *)
Definition add_field (e : Embed) (n v : string) (i : bool) : Embed :=
  mkEmbed (title e) (description e) (color e) (image e) (thumbnail e)
    (fields e ++ [mkField n v i]) (footer e).

(** [embed.set_footer(text=t)]. *)
Definition set_footer (e : Embed) (t : string) : Embed :=
  mkEmbed (title e) (description e) (color e) (image e) (thumbnail e) (fields e)
    (Some t).

Inductive ButtonStyle : Type := link.

Record Button : Type := mkButton {
  button_style : ButtonStyle;
  button_url : string;
  button_label : string;
  button_emoji : string
}.

(** The truth value of an optional string: [None] and [""] are falsy. *)
Definition given (u : option string) : option string :=
  match u with
  | Some s => if (s =? "")%string then None else Some s
  | None => None
  end.

(** [build_iteminfo_view] (embeds.py, 114-172). *)
Definition build_iteminfo_view (details : dict) : option (list Button) :=
  let urls := extract_market_urls details in
  let view : list Button := [] in
  let buttons := 0%nat in
  let steam_url := MarketUrls.steam urls in
  let csdeals_url := MarketUrls.csdeals urls in
  let skinport_url := MarketUrls.skinport urls in
  let '(view, buttons) :=
    match given steam_url with
    | Some steam_url =>
        (view ++ [mkButton link steam_url "Steam Market" "🟦"], S buttons)
    | None => (view, buttons)
    end in
  let '(view, buttons) :=
    match given csdeals_url with
    | Some csdeals_url =>
        (view ++ [mkButton link csdeals_url "CS.Deals" "🟣"], S buttons)
    | None => (view, buttons)
    end in
  let '(view, buttons) :=
    match given skinport_url with
    | Some skinport_url =>
        (view ++ [mkButton link skinport_url "Skinport" "🟢"], S buttons)
    | None => (view, buttons)
    end in
  if Nat.eqb buttons 0 then None else Some view.

(** The items of [sep.join(l)]: each must be a string; the first that is not
    raises, [i] being its position. *)
Fixpoint str_items (i : Z) (l : list value) : result (list string) :=
  match l with
  | [] => Ok []
  | PyStr s :: rest =>
      strs <- str_items (i + 1) rest ;;
      Ok (s :: strs)
  | v :: _ =>
      Raise (TypeError ("sequence item " ++ string_of_Z i
                        ++ ": expected str instance, " ++ type_name v
                        ++ " found")%string)
  end.

(** [sep.join(l)]. *)
Definition py_join (sep : string) (l : list value) : result string :=
  strs <- str_items 0 l ;;
  Ok (String.concat sep strs).

Section Embeds.

(** [str()] of the values that are not strings, integers, booleans or
    [None]. *)
Variable repr_other : value -> string.

(** [build_store_item_embed] (embeds.py, 269-331). *)
Definition build_store_item_embed (item : StoreItem) (details : option dict)
    (include_third_party : bool) : result Embed :=
  let subtitle_parts : list value := [] in
  let subtitle_parts :=
    if truthy (item_type item) then subtitle_parts ++ [item_type item]
    else subtitle_parts in
  let subtitle_parts :=
    if truthy (collection item)
    then subtitle_parts
         ++ [PyStr (py_str repr_other (collection item) ++ " collection")%string]
    else subtitle_parts in
  subtitle <-
    match subtitle_parts with
    | [] => Ok "Rust store item"
    | _ => py_join " • " subtitle_parts
    end ;;
  let embed := mkEmbed (name item) subtitle dark_orange None None [] None in
  let embed :=
    if truthy (icon_url item) then set_image embed (icon_url item) else embed in
  (* Prices: Store vs Steam vs 3rd party *)
  price_block <- _render_market_lines details include_third_party ;;
  let embed := add_field embed "🛒 Prices" price_block false in
  (* IDs / meta *)
  let id_lines : list string := [] in
  let id_lines :=
    if truthy (workshop_file_id item)
    then id_lines
         ++ [("Workshop: `" ++ py_str repr_other (workshop_file_id item) ++ "`")%string]
    else id_lines in
  let id_lines :=
    match id item with
    | PyNone => id_lines
    | _ => id_lines ++ [("Store ID: `" ++ py_str repr_other (id item) ++ "`")%string]
    end in
  let id_lines :=
    if truthy (app_id item)
    then id_lines ++ [("App ID: `" ++ py_str repr_other (app_id item) ++ "`")%string]
    else id_lines in
  let embed :=
    match id_lines with
    | [] => embed
    | _ => add_field embed "🧾 Details" (String.concat newline id_lines) false
    end in
  stats_block <- _build_stats_block details ;;
  let embed :=
    match given stats_block with
    | Some stats_block => add_field embed "📊 Item stats" stats_block false
    | None => embed
    end in
  Ok (set_footer embed "SCMM • Weekly Rust Store • Auto-deletes in 5 minutes").

End Embeds.

(** [build_lookup_embed] (embeds.py, 339-380). *)
Definition build_lookup_embed (details : dict) : result Embed :=
  let name := py_or (dict_get details "name") (PyStr "Unknown item") in
  let icon_url :=
    py_or (py_or (dict_get details "iconUrl") (dict_get details "iconURL"))
          (dict_get details "imageUrl") in
  let embed :=
    mkEmbed name "Lookup: Store vs Steam Market" blurple None None [] None in
  let embed :=
    if truthy icon_url then set_image (set_thumbnail embed icon_url) icon_url
    else embed in
  price_block <- _render_market_lines (Some details) false ;;
  let embed := add_field embed "🛒 Prices" price_block false in
  stats_block <- _build_stats_block (Some details) ;;
  let embed :=
    match given stats_block with
    | Some stats_block => add_field embed "📊 Item stats" stats_block false
    | None => embed
    end in
  Ok (set_footer embed "SCMM • Lookup • Auto-deletes in 5 minutes").

(** [build_item_overview_embed] (embeds.py, 388-434). *)
Definition build_item_overview_embed (details : dict) : result Embed :=
  let name := py_or (dict_get details "name") (PyStr "Unknown item") in
  let icon_url :=
    py_or (py_or (dict_get details "iconUrl") (dict_get details "iconURL"))
          (dict_get details "imageUrl") in
  let embed :=
    mkEmbed name "Cross-market overview (Store, Steam, Skinport, CS.Deals)"
      blurple None None [] None in
  let embed := if truthy icon_url then set_image embed icon_url else embed in
  (* Prices: Store vs Steam vs 3rd party (Skinport / CS.Deals) *)
  price_block <- _render_market_lines (Some details) true ;;
  let embed := add_field embed "🛒 Prices" price_block false in
  stats_block <- _build_stats_block (Some details) ;;
  let embed :=
    match given stats_block with
    | Some stats_block => add_field embed "📊 Item stats" stats_block false
    | None => embed
    end in
  Ok (set_footer embed "SCMM • Item Market Overview • Auto-deletes in 5 minutes").

(** The label of a venue's button. *)
Definition venue_label (v : venue) : string :=
  match v with
  | Steam => "Steam Market"
  | CSDeals => "CS.Deals"
  | Skinport => "Skinport"
  end.

Definition is_some {A : Type} (o : option A) : bool :=
  match o with
  | Some _ => true
  | None => false
  end.

(** ** The commands (main.py) *)


Section Commands.

Variable http : string -> http_outcome.


End Commands.



Section WeekLookup.

Variable http : string -> http_outcome.

Variable repr_other : value -> string.

(** The constructor [datetime.date], imported as [Date]: it returns a date
    or raises. *)
Variable Date : Z -> Z -> Z -> result date.



End WeekLookup.

(** * Theorems *)

(** ** Price normalization (C1) *)

Lemma norm_price_number (val : value) (v : float) :
  is_number val = true -> py_float val = Ok v ->
  _norm_price val = Ok (Some (normalized_price v)).
Proof.
  intros Hn Hf. unfold _norm_price. rewrite Hn, Hf. reflexivity.
Qed.

Lemma extract_store_price_number (details : dict) (v : float) :
  is_number (dict_get details "storePrice") = true ->
  py_float (dict_get details "storePrice") = Ok v ->
  extract_store_price_from_details details = Ok (Some (normalized_price v)).
Proof.
  intros Hn Hf. unfold extract_store_price_from_details.
  rewrite Hn, Hf. reflexivity.
Qed.

Lemma normalize_store_item_price (raw : dict) (val : value) (v : float) :
  find is_number (price_fields raw) = Some val -> py_float val = Ok v ->
  exists item, _normalize_store_item raw = Ok item
               /\ store_price item = Some (normalized_price v).
Proof.
  intros Hfind Hf. unfold _normalize_store_item.
  unfold price_fields in Hfind. rewrite Hfind, Hf. cbn.
  eexists. split; [reflexivity |]. reflexivity.
Qed.

Lemma normalize_store_item_no_price (raw : dict) :
  find is_number (price_fields raw) = None ->
  exists item, _normalize_store_item raw = Ok item /\ store_price item = None.
Proof.
  intros Hfind. unfold _normalize_store_item.
  unfold price_fields in Hfind. rewrite Hfind. cbn.
  eexists. split; reflexivity.
Qed.

(** C1. For a numeric input of float value [v] the normalized price is [v/100]
    when [v > 50] and [v] otherwise, in [_norm_price], in
    [extract_store_price_from_details] and in the store price of
    [_normalize_store_item] alike; 50 is kept and 50.01 is divided; an input
    that is not a number gives [None]. *)
Theorem C1_price_normalization :
  (forall (val : value) (v : float),
     is_number val = true -> py_float val = Ok v ->
     _norm_price val = Ok (Some (if (50 <? v)%float then (v / 100)%float else v))
     /\ (forall details, dict_get details "storePrice" = val ->
           extract_store_price_from_details details
           = Ok (Some (if (50 <? v)%float then (v / 100)%float else v)))
     /\ (forall raw, find is_number (price_fields raw) = Some val ->
           exists item, _normalize_store_item raw = Ok item
             /\ store_price item
                = Some (if (50 <? v)%float then (v / 100)%float else v)))
  /\ (_norm_price (PyInt 50) = Ok (Some 50%float)
      /\ _norm_price (PyFloat 50) = Ok (Some 50%float)
      /\ _norm_price (PyFloat f50_01) = Ok (Some (f50_01 / 100)%float)
      /\ extract_store_price_from_details [("storePrice", PyInt 50)]
         = Ok (Some 50%float)
      /\ extract_store_price_from_details [("storePrice", PyFloat f50_01)]
         = Ok (Some (f50_01 / 100)%float)
      /\ (exists item, _normalize_store_item [("price", PyInt 50)] = Ok item
                       /\ store_price item = Some 50%float)
      /\ (exists item, _normalize_store_item [("price", PyFloat f50_01)] = Ok item
                       /\ store_price item = Some (f50_01 / 100)%float))
  /\ (forall w, is_number w = false ->
        _norm_price w = Ok None
        /\ (forall details, dict_get details "storePrice" = w ->
              extract_store_price_from_details details = Ok None))
  /\ (forall raw, find is_number (price_fields raw) = None ->
        exists item, _normalize_store_item raw = Ok item
                     /\ store_price item = None).
Proof.
  split; [| split; [| split]].
  - intros val v Hn Hf.
    split; [exact (norm_price_number val v Hn Hf) |].
    split.
    + intros details Hd.
      apply extract_store_price_number; rewrite Hd; assumption.
    + intros raw Hfind. exact (normalize_store_item_price raw val v Hfind Hf).
  - do 5 (split; [vm_compute; reflexivity |]).
    split; eexists; (split; [vm_compute; reflexivity | reflexivity]).
  - intros w Hw. split.
    + unfold _norm_price. rewrite Hw. reflexivity.
    + intros details Hd. unfold extract_store_price_from_details.
      rewrite Hd, Hw. reflexivity.
  - intros raw Hfind. apply normalize_store_item_no_price. assumption.
Qed.

Lemma C1_price_normalization_witness :
  _norm_price (PyInt 5001) = Ok (Some (5001 / 100)%float).
Proof.
  exact (proj1 (proj1 C1_price_normalization (PyInt 5001) 5001%float
                  eq_refl eq_refl)).
Defined.

(** ** Order on binary64 values *)

Ltac cmp_cases :=
  repeat match goal with
  | H : context [(?a ?= ?b)%Z] |- _ => destruct (Z.compare_spec a b)
  | |- context [(?a ?= ?b)%Z] => destruct (Z.compare_spec a b)
  | H : context [PosDef.Pos.compare_cont Eq ?a ?b] |- _ =>
      change (PosDef.Pos.compare_cont Eq a b) with (Pos.compare a b) in H;
      destruct (Pos.compare_spec a b)
  | |- context [PosDef.Pos.compare_cont Eq ?a ?b] =>
      change (PosDef.Pos.compare_cont Eq a b) with (Pos.compare a b);
      destruct (Pos.compare_spec a b)
  end.

Lemma SFcompare_lt_trans (x y z : spec_float) :
  SFcompare x y = Some Lt -> SFcompare y z = Some Lt -> SFcompare x z = Some Lt.
Proof.
  destruct x as [sx|sx| |sx mx ex], y as [sy|sy| |sy my ey], z as [sz|sz| |sz mz ez];
    cbn; try discriminate;
    repeat match goal with s : bool |- _ => destruct s end;
    cbn; try discriminate; try reflexivity;
    intros H1 H2; cmp_cases; cbn in *; try discriminate; try reflexivity;
    subst; try lia.
Qed.

Lemma SFcompare_antisym (x y : spec_float) :
  SFcompare y x = option_map CompOpp (SFcompare x y).
Proof.
  destruct x as [sx|sx| |sx mx ex], y as [sy|sy| |sy my ey];
    cbn; try reflexivity;
    repeat match goal with s : bool |- _ => destruct s end;
    cbn; try reflexivity;
    cmp_cases; cbn; try reflexivity; subst; try lia.
Qed.

Lemma SFcompare_nan (x y : spec_float) :
  SFcompare x y = None -> x = S754_nan \/ y = S754_nan.
Proof.
  destruct x, y; cbn; try discriminate; auto.
Qed.

Lemma float_ltb_trans (x y z : float) :
  (x <? y)%float = true -> (y <? z)%float = true -> (x <? z)%float = true.
Proof.
  rewrite !ltb_spec. unfold SFltb.
  destruct (SFcompare (Prim2SF x) (Prim2SF y)) as [[]|] eqn:H1; try discriminate.
  destruct (SFcompare (Prim2SF y) (Prim2SF z)) as [[]|] eqn:H2; try discriminate.
  intros _ _. rewrite (SFcompare_lt_trans _ _ _ H1 H2). reflexivity.
Qed.

Lemma float_ltb_irrefl (x : float) : (x <? x)%float = false.
Proof.
  rewrite ltb_spec. unfold SFltb.
  pose proof (SFcompare_antisym (Prim2SF x) (Prim2SF x)) as H.
  destruct (SFcompare (Prim2SF x) (Prim2SF x)) as [[]|]; try reflexivity.
  discriminate H.
Qed.

Lemma is_nan_spec (x : float) : is_nan x = true <-> Prim2SF x = S754_nan.
Proof.
  unfold is_nan. rewrite eqb_spec. unfold SFeqb.
  destruct (Prim2SF x) as [s|s| |s m e]; cbn.
  - split; discriminate.
  - destruct s; split; discriminate.
  - split; reflexivity.
  - rewrite Z.compare_refl.
    change (PosDef.Pos.compare_cont Eq m m) with (Pos.compare m m).
    rewrite Pos.compare_refl. destruct s; cbn; split; discriminate.
Qed.

Lemma float_not_ltb_leb (p r : float) :
  is_nan p = false -> is_nan r = false ->
  (p <? r)%float = false -> (r <=? p)%float = true.
Proof.
  intros Hp Hr. rewrite ltb_spec, leb_spec. unfold SFltb, SFleb.
  rewrite (SFcompare_antisym (Prim2SF p) (Prim2SF r)).
  destruct (SFcompare (Prim2SF p) (Prim2SF r)) as [[]|] eqn:H; cbn;
    try reflexivity; try discriminate.
  intros _. apply SFcompare_nan in H. destruct H as [H|H];
    apply is_nan_spec in H; congruence.
Qed.

(** ** Python's [min] *)

Section PyMin.

Let keep (m x : float) : float := if (x <? m)%float then x else m.

Lemma fold_min_spec (rest : list float) (m : float) :
  In (fold_left keep rest m) (m :: rest)
  /\ (forall q, (q <? m)%float = false ->
                (q <? fold_left keep rest m)%float = false)
  /\ (forall q, In q rest -> (q <? fold_left keep rest m)%float = false).
Proof.
  revert m. induction rest as [|x rest IH]; intros m; cbn [fold_left].
  - split; [left; reflexivity |]. split; [auto |]. intros q [].
  - destruct (IH (keep m x)) as (Hin & Hle & Hrest).
    assert (Hstep : forall q, (q <? m)%float = false ->
                              (q <? keep m x)%float = false).
    { intros q Hq. unfold keep. destruct (x <? m)%float eqn:Hx; [| exact Hq].
      destruct (q <? x)%float eqn:Hqx; [| reflexivity].
      rewrite (float_ltb_trans _ _ _ Hqx Hx) in Hq. discriminate. }
    split; [| split].
    + destruct Hin as [Hin | Hin]; [| right; right; exact Hin].
      assert (Hk : keep m x = x \/ keep m x = m)
        by (unfold keep; destruct (x <? m)%float; auto).
      destruct Hk as [Hk | Hk]; rewrite Hk in Hin |- *.
      * right. left. exact Hin.
      * left. exact Hin.
    + intros q Hq. apply Hle, Hstep, Hq.
    + intros q [<- | Hq]; [| apply Hrest, Hq].
      apply Hle. unfold keep. destruct (x <? m)%float eqn:Hqm.
      * apply float_ltb_irrefl.
      * exact Hqm.
Qed.

End PyMin.

Lemma py_min_none (ps : list float) : py_min ps = None <-> ps = [].
Proof.
  destruct ps; cbn; split; intros H; try reflexivity; discriminate.
Qed.

Lemma py_min_in (ps : list float) (r : float) :
  py_min ps = Some r -> In r ps.
Proof.
  destruct ps as [|p rest]; cbn; [discriminate |].
  intros [= <-]. exact (proj1 (fold_min_spec rest p)).
Qed.

Lemma py_min_lower (ps : list float) (r p : float) :
  py_min ps = Some r -> In p ps -> (p <? r)%float = false.
Proof.
  destruct ps as [|p0 rest]; cbn [py_min]; [discriminate |].
  destruct (fold_min_spec rest p0) as (_ & Hle & Hrest).
  intros [= <-] [<- | Hin].
  - apply Hle, float_ltb_irrefl.
  - apply Hrest, Hin.
Qed.

Lemma py_min_least (ps : list float) (r p : float) :
  Forall (fun q => is_nan q = false) ps ->
  py_min ps = Some r -> In p ps -> (r <=? p)%float = true.
Proof.
  intros Hnan Hmin Hin. rewrite Forall_forall in Hnan.
  apply float_not_ltb_leb.
  - apply Hnan, Hin.
  - apply Hnan. exact (py_min_in _ _ Hmin).
  - exact (py_min_lower _ _ _ Hmin Hin).
Qed.

(** ** The best-price scan *)

Lemma norm_price_some (val : value) (r : option float) :
  _norm_price val = Ok r ->
  is_number val = match r with Some _ => true | None => false end.
Proof.
  unfold _norm_price. destruct (is_number val); cbn.
  - destruct (py_float val); cbn; [| discriminate]. intros [= <-]. reflexivity.
  - intros [= <-]. reflexivity.
Qed.

(** The cases of a [marketType] value against the four known tags. *)
Ltac tag_cases m :=
  destruct m as [| | | |t| |]; cbn [str_eq];
  [..| destruct (String.eqb_spec t "SteamCommunityMarket");
       [subst t |
        destruct (String.eqb_spec t "SteamMarket");
        [subst t |
         destruct (String.eqb_spec t "Skinport");
         [subst t |
          destruct (String.eqb_spec t "CSDealsMarketplace");
          [subst t |]]]] | |].

Ltac improves_cases :=
  repeat match goal with
  | |- context [improves ?c ?q] => destruct (improves c q)
  end.

Lemma scan_entry_venue (v : venue) (st st' : scan_state) (entry : value) :
  scan_entry st entry = Ok st' ->
  if qualifies v entry
  then exists p, entry_price entry = Ok (Some p)
                 /\ state_price v st' = lower (state_price v st) p
  else state_price v st' = state_price v st.
Proof.
  destruct entry as [| | | | | |e]; cbn [scan_entry qualifies];
    try (intros [= <-]; reflexivity).
  unfold marked_unavailable, has_tag, entry_price.
  destruct (is_False (dict_get e "isAvailable")); cbn [negb andb];
    [intros [= <-]; reflexivity |].
  destruct (_norm_price (dict_get e "price")) as [r|] eqn:Hnorm; cbn [bind];
    [| discriminate].
  rewrite (norm_price_some _ _ Hnorm).
  destruct r as [p|]; [| rewrite andb_false_r; intros [= <-]; reflexivity].
  rewrite andb_true_r. unfold lower.
  destruct v; cbn [venue_tags existsb state_price];
    tag_cases (dict_get e "marketType"); cbn;
    intros [= <-];
    try (eexists; split; [reflexivity |]);
    improves_cases; reflexivity.
Qed.

Lemma scan_venue (v : venue) (seq : list value) :
  forall st st',
    scan seq st = Ok st' ->
    exists ps,
      Forall2 (fun e p => entry_price e = Ok (Some p)) (filter (qualifies v) seq) ps
      /\ state_price v st' = fold_left lower ps (state_price v st).
Proof.
  induction seq as [|entry rest IH]; intros st st'; cbn [scan filter].
  - intros [= <-]. exists []. split; [constructor | reflexivity].
  - destruct (scan_entry st entry) as [st1|] eqn:Hentry; cbn [bind];
      [| discriminate].
    intros Hrest. destruct (IH _ _ Hrest) as (ps & Hps & Hfold).
    pose proof (scan_entry_venue v _ _ _ Hentry) as Hstep.
    destruct (qualifies v entry).
    + destruct Hstep as (p & Hp & Hst1). exists (p :: ps). split.
      * constructor; assumption.
      * cbn [fold_left]. rewrite <- Hst1. exact Hfold.
    + exists ps. split; [assumption |]. rewrite <- Hstep. exact Hfold.
Qed.

Lemma scan_key_venue (v : venue) (details : dict) (key : string) :
  forall st st',
    scan_key details key st = Ok st' ->
    exists ps,
      Forall2 (fun e p => entry_price e = Ok (Some p))
        (filter (qualifies v) (entries_of details key)) ps
      /\ state_price v st' = fold_left lower ps (state_price v st).
Proof.
  intros st st'. unfold scan_key, entries_of.
  destruct (dict_get details key);
    try (intros [= <-]; exists []; split; [constructor | reflexivity]).
  apply scan_venue.
Qed.

Lemma fold_lower_some (ps : list float) (c : float) :
  fold_left lower ps (Some c)
  = Some (fold_left (fun m x => if (x <? m)%float then x else m) ps c).
Proof.
  revert c. induction ps as [|p ps IH]; intros c; cbn [fold_left].
  - reflexivity.
  - unfold lower at 2. cbn [improves].
    destruct (p <? c)%float; apply IH.
Qed.

Lemma fold_lower_min (ps : list float) : fold_left lower ps None = py_min ps.
Proof.
  destruct ps as [|p ps]; cbn; [reflexivity |]. apply fold_lower_some.
Qed.

(** What [get_market_breakdown] returns, step by step. *)
Lemma get_market_breakdown_inv (details : dict) (bd : Breakdown.t) :
  get_market_breakdown details = Ok bd ->
  exists store st1 st2,
    extract_store_price_from_details details = Ok store
    /\ scan_key details "buyPrices" (mkScan None None None) = Ok st1
    /\ scan_key details "sellPrices" st1 = Ok st2
    /\ Breakdown.store_price bd = store
    /\ (forall v, Breakdown.price v bd = state_price v st2)
    /\ Breakdown.steam_vs_store_pct bd
       = match store, scan_steam st2 with
         | Some store_price, Some steam_price =>
             if negb (store_price =? 0)%float
             then Some ((steam_price - store_price) / store_price * 100)%float
             else None
         | _, _ => None
         end
    /\ Breakdown.skinport_vs_steam_pct bd
       = _pct_vs_steam (scan_steam st2) (scan_skinport st2)
    /\ Breakdown.csdeals_vs_steam_pct bd
       = _pct_vs_steam (scan_steam st2) (scan_csdeals st2).
Proof.
  unfold get_market_breakdown.
  destruct (extract_store_price_from_details details) as [store|] eqn:Hstore;
    cbn [bind]; [| discriminate].
  destruct (scan_key details "buyPrices" _) as [st1|] eqn:Hbuy; cbn [bind];
    [| discriminate].
  destruct (scan_key details "sellPrices" st1) as [st2|] eqn:Hsell; cbn [bind];
    [| discriminate].
  intros [= <-]. exists store, st1, st2. cbn.
  do 4 (split; [reflexivity || assumption |]).
  split; [intros []; reflexivity |].
  split; [reflexivity |]. split; reflexivity.
Qed.

(** The prices of the qualifying entries, in list order, and the venue price
    as the fold over them. *)
Lemma breakdown_venue_prices (details : dict) (bd : Breakdown.t) (v : venue) :
  get_market_breakdown details = Ok bd ->
  exists ps,
    Forall2 (fun e p => entry_price e = Ok (Some p))
      (filter (qualifies v) (price_entries details)) ps
    /\ Breakdown.price v bd = py_min ps.
Proof.
  intros Hbd.
  destruct (get_market_breakdown_inv _ _ Hbd)
    as (store & st1 & st2 & _ & Hbuy & Hsell & _ & Hprice & _).
  destruct (scan_key_venue v _ _ _ _ Hbuy) as (ps1 & Hps1 & Hf1).
  destruct (scan_key_venue v _ _ _ _ Hsell) as (ps2 & Hps2 & Hf2).
  exists (ps1 ++ ps2). split.
  - unfold price_entries. rewrite filter_app. apply Forall2_app; assumption.
  - rewrite Hprice, Hf2, Hf1, <- fold_left_app.
    destruct v; apply fold_lower_min.
Qed.

Lemma Forall2_in_left {A B : Type} (R : A -> B -> Prop) (l : list A) (l' : list B) :
  Forall2 R l l' -> forall a, In a l -> exists b, In b l' /\ R a b.
Proof.
  induction 1 as [|x y l l' Hxy _ IH]; intros a; cbn.
  - intros [].
  - intros [<- | Ha].
    + exists y. split; [left; reflexivity | exact Hxy].
    + destruct (IH a Ha) as (b & Hb & Hab). exists b. split; [right |]; assumption.
Qed.

Lemma Forall2_nil_iff {A B : Type} (R : A -> B -> Prop) (l : list A) (l' : list B) :
  Forall2 R l l' -> (l' = [] <-> l = []).
Proof.
  destruct 1; split; intros Hnil; try reflexivity; discriminate.
Qed.

(** ** Best price per venue (C2) *)

(** C2. For each venue the price of the breakdown is the minimum of the
    normalized prices of the entries of the buy-price and sell-price lists that
    carry the venue's tag with a numeric price and are not marked unavailable:
    it is one of these prices and none of them is below it (and it is below
    or equal to each when none is a NaN); it is [None] exactly when no entry
    qualifies; an entry marked unavailable is not among the qualifying ones. *)
Theorem C2_venue_price_is_minimum :
  forall (details : dict) (bd : Breakdown.t) (v : venue),
    get_market_breakdown details = Ok bd ->
    exists ps : list float,
      Forall2 (fun e p => entry_price e = Ok (Some p))
        (filter (qualifies v) (price_entries details)) ps
      /\ Breakdown.price v bd = py_min ps
      /\ (Breakdown.price v bd = None
          <-> filter (qualifies v) (price_entries details) = [])
      /\ (forall r, Breakdown.price v bd = Some r ->
            In r ps
            /\ (forall p, In p ps -> (p <? r)%float = false)
            /\ (Forall (fun q => is_nan q = false) ps ->
                forall p, In p ps -> (r <=? p)%float = true))
      /\ (forall e, marked_unavailable e = true ->
            ~ In (PyDict e) (filter (qualifies v) (price_entries details))).
Proof.
  intros details bd v Hbd.
  destruct (breakdown_venue_prices details bd v Hbd) as (ps & Hps & Hmin).
  exists ps. split; [exact Hps |]. split; [exact Hmin |]. split; [| split].
  - rewrite Hmin, py_min_none. exact (Forall2_nil_iff _ _ _ Hps).
  - intros r Hr. rewrite Hmin in Hr. split; [| split].
    + exact (py_min_in _ _ Hr).
    + intros p. exact (py_min_lower _ _ _ Hr).
    + intros Hnan p. exact (py_min_least _ _ _ Hnan Hr).
  - intros e He Hin. apply filter_In in Hin. destruct Hin as [_ Hq].
    cbn in Hq. rewrite He in Hq. discriminate.
Qed.

Lemma C2_venue_price_is_minimum_witness :
  get_market_breakdown sample_details = Ok sample_breakdown
  /\ exists ps : list float,
       Forall2 (fun e p => entry_price e = Ok (Some p))
         (filter (qualifies Steam) (price_entries sample_details)) ps
       /\ Breakdown.price Steam sample_breakdown = py_min ps.
Proof.
  split; [vm_compute; reflexivity |].
  destruct (C2_venue_price_is_minimum sample_details sample_breakdown Steam
              ltac:(vm_compute; reflexivity)) as (ps & Hps & Hmin & _).
  exists ps. split; assumption.
Defined.

(** ** Percentage deltas (C3) *)

(** C3. Each percentage delta of the breakdown is [None] when one of its two
    operands is absent or its base is zero, and [(new - base) / base * 100]
    otherwise; the base is the store price for the Steam delta and the Steam
    price for the Skinport and CS.Deals deltas. *)
Theorem C3_percentage_deltas :
  forall (details : dict) (bd : Breakdown.t),
    get_market_breakdown details = Ok bd ->
    Breakdown.steam_vs_store_pct bd
    = match Breakdown.steam_price bd, Breakdown.store_price bd with
      | Some new_, Some base =>
          if (base =? 0)%float then None
          else Some ((new_ - base) / base * 100)%float
      | _, _ => None
      end
    /\ Breakdown.skinport_vs_steam_pct bd
       = match Breakdown.skinport_price bd, Breakdown.steam_price bd with
         | Some new_, Some base =>
             if (base =? 0)%float then None
             else Some ((new_ - base) / base * 100)%float
         | _, _ => None
         end
    /\ Breakdown.csdeals_vs_steam_pct bd
       = match Breakdown.csdeals_price bd, Breakdown.steam_price bd with
         | Some new_, Some base =>
             if (base =? 0)%float then None
             else Some ((new_ - base) / base * 100)%float
         | _, _ => None
         end.
Proof.
  intros details bd Hbd.
  destruct (get_market_breakdown_inv _ _ Hbd)
    as (store & st1 & st2 & _ & _ & _ & Hstore & Hprice & Hs & Hk & Hc).
  rewrite Hs, Hk, Hc, Hstore.
  change (Breakdown.steam_price bd) with (Breakdown.price Steam bd).
  change (Breakdown.skinport_price bd) with (Breakdown.price Skinport bd).
  change (Breakdown.csdeals_price bd) with (Breakdown.price CSDeals bd).
  rewrite !Hprice. cbn [state_price]. unfold _pct_vs_steam.
  split; [| split].
  - destruct store as [s|], (scan_steam st2) as [m|]; try reflexivity.
    destruct (s =? 0)%float; reflexivity.
  - destruct (scan_steam st2), (scan_skinport st2); reflexivity.
  - destruct (scan_steam st2), (scan_csdeals st2); reflexivity.
Qed.

Lemma C3_percentage_deltas_witness :
  get_market_breakdown sample_details = Ok sample_breakdown
  /\ Breakdown.steam_vs_store_pct sample_breakdown
     = Some ((295 / 100 - 249 / 100) / (249 / 100) * 100)%float.
Proof.
  split; [vm_compute; reflexivity |].
  rewrite (proj1 (C3_percentage_deltas sample_details sample_breakdown
                    ltac:(vm_compute; reflexivity))).
  vm_compute. reflexivity.
Defined.

(** ** Availability (C9) *)

Lemma is_False_false (v : value) : v <> PyBool false -> is_False v = false.
Proof.
  destruct v as [|[]| | | | |]; intros H; try reflexivity. congruence.
Qed.

(** C9. The scan skips an entry for unavailability only when its
    [isAvailable] field is the boolean [False]; with any other value there
    (missing, null, or of another type) the entry is handled exactly as one
    whose field is [True], and when it carries a venue's tag and a numeric
    price it takes part in the selection: the venue price is present and the
    entry's price is not below it. *)
Theorem C9_unavailable_only_when_False :
  forall (entry : dict),
    (dict_get entry "isAvailable" = PyBool false ->
       forall st, scan_entry st (PyDict entry) = Ok st)
    /\ (dict_get entry "isAvailable" <> PyBool false ->
          (forall st,
             scan_entry st (PyDict entry)
             = scan_entry st (PyDict (("isAvailable", PyBool true) :: entry)))
          /\ (forall details bd v,
                In (PyDict entry) (price_entries details) ->
                has_tag v entry = true ->
                is_number (dict_get entry "price") = true ->
                get_market_breakdown details = Ok bd ->
                exists p r,
                  entry_price (PyDict entry) = Ok (Some p)
                  /\ Breakdown.price v bd = Some r
                  /\ (p <? r)%float = false)).
Proof.
  intros entry. split.
  - intros Hav st. cbn [scan_entry]. rewrite Hav. reflexivity.
  - intros Hav. apply is_False_false in Hav. split.
    + intros st. cbn [scan_entry]. rewrite Hav. reflexivity.
    + intros details bd v Hin Htag Hnum Hbd.
      destruct (breakdown_venue_prices details bd v Hbd) as (ps & Hps & Hmin).
      assert (Hq : In (PyDict entry) (filter (qualifies v) (price_entries details))).
      { apply filter_In. split; [exact Hin |]. cbn [qualifies].
        unfold marked_unavailable. rewrite Hav, Htag, Hnum. reflexivity. }
      destruct (Forall2_in_left _ _ _ Hps _ Hq) as (p & Hp & Hprice).
      destruct (py_min ps) as [r|] eqn:Hr.
      * exists p, r. split; [exact Hprice |]. split; [exact Hmin |].
        exact (py_min_lower _ _ _ Hr Hp).
      * apply py_min_none in Hr. subst ps. destruct Hp.
Qed.

Lemma C9_unavailable_only_when_False_witness :
  scan_entry (mkScan None None None)
    (market_entry "Skinport" (PyInt 120) [("isAvailable", PyBool false)])
  = Ok (mkScan None None None).
Proof.
  exact (proj1 (C9_unavailable_only_when_False
                  [("marketType", PyStr "Skinport"); ("price", PyInt 120);
                   ("isAvailable", PyBool false)])
           eq_refl (mkScan None None None)).
Defined.

(** An availability of [0], of [None] or a missing one does not exclude. *)
Example scan_entry_available_unless_False :
  let st := mkScan None None None in
  scan_entry st (market_entry "Skinport" (PyInt 120) [("isAvailable", PyInt 0)])
  = Ok (mkScan None (Some (120 / 100)%float) None)
  /\ scan_entry st (market_entry "Skinport" (PyInt 120) [("isAvailable", PyNone)])
     = Ok (mkScan None (Some (120 / 100)%float) None)
  /\ scan_entry st (market_entry "Skinport" (PyInt 120) [])
     = Ok (mkScan None (Some (120 / 100)%float) None).
Proof.
  cbv zeta. repeat split; vm_compute; reflexivity.
Qed.

(** The unavailable Steam entry at 1.20 is passed over for the one at 2.95. *)
Example sample_breakdown_steam :
  Breakdown.steam_price sample_breakdown = Some (295 / 100)%float
  /\ Breakdown.skinport_price sample_breakdown = Some 2.75%float
  /\ Breakdown.csdeals_price sample_breakdown = Some (305 / 100)%float.
Proof.
  repeat split; vm_compute; reflexivity.
Qed.

(** ** Store item normalization (C10) *)

(** A name that is truthy but not a string is kept as it is. *)
Lemma C10_name_not_always_string :
  ~ (forall raw : dict,
       exists item s,
         _normalize_store_item raw = Ok item
         /\ name item = PyStr s /\ s <> "").
Proof.
  intros H. destruct (H [("name", PyInt 42)]) as (item & s & Hitem & Hname & _).
  vm_compute in Hitem. injection Hitem as <-. discriminate Hname.
Qed.

(** An integer price past the range of a binary64 makes [float()] raise. *)
Example normalize_store_item_overflow :
  _normalize_store_item [("name", PyStr "Crate"); ("price", PyInt (10 ^ 400))]
  = Raise (OverflowError "int too large to convert to float").
Proof.
  vm_compute. reflexivity.
Qed.

(** C10, as the code has it. When the price field, if there is one, converts
    to a float, [_normalize_store_item] returns a store item. Its name is
    ["Unknown"] when the raw name is missing, empty or falsy, and the raw name
    unchanged otherwise, so a non-empty string whenever the raw name is a
    string. The price is the normalized price of the first numeric price field
    or absent; every other field is the raw value or [None]. *)
Theorem C10_normalize_store_item :
  forall raw : dict,
    (forall val, find is_number (price_fields raw) = Some val ->
                 exists v, py_float val = Ok v) ->
    exists item,
      _normalize_store_item raw = Ok item
      /\ (truthy (dict_get raw "name") = false -> name item = PyStr "Unknown")
      /\ (truthy (dict_get raw "name") = true -> name item = dict_get raw "name")
      /\ (is_str (dict_get raw "name") = true ->
          exists s, name item = PyStr s /\ s <> "")
      /\ (forall val v,
            find is_number (price_fields raw) = Some val -> py_float val = Ok v ->
            store_price item = Some (normalized_price v))
      /\ (find is_number (price_fields raw) = None -> store_price item = None)
      /\ id item = dict_get raw "id"
      /\ workshop_file_id item = dict_get raw "workshopFileId"
      /\ app_id item = dict_get raw "appId"
      /\ icon_url item
         = py_or (py_or (py_or (dict_get raw "iconUrl") (dict_get raw "iconURL"))
                        (dict_get raw "imageUrl")) PyNone
      /\ item_type item = py_or (dict_get raw "itemType") PyNone
      /\ collection item = py_or (dict_get raw "itemCollection") PyNone.
Proof.
  intros raw Hconv. unfold _normalize_store_item.
  fold (price_fields raw).
  destruct (find is_number (price_fields raw)) as [val|] eqn:Hfind.
  - destruct (Hconv val eq_refl) as (v & Hv). rewrite Hv. cbn [bind].
    eexists. split; [reflexivity |]. cbn.
    split; [intros Ht; unfold py_or; rewrite Ht; reflexivity |].
    split; [intros Ht; unfold py_or; rewrite Ht; reflexivity |].
    split.
    { destruct (dict_get raw "name") as [| | | |s| |]; try discriminate.
      intros _. unfold py_or. cbn [truthy].
      destruct (String.eqb_spec s ""); cbn [negb].
      - exists "Unknown". split; [reflexivity | discriminate].
      - exists s. split; [reflexivity | assumption]. }
    split; [intros val' v' [= <-] Hv'; rewrite Hv in Hv'; injection Hv' as <-;
            reflexivity |].
    split; [discriminate |].
    repeat split.
  - cbn [bind]. eexists. split; [reflexivity |]. cbn.
    split; [intros Ht; unfold py_or; rewrite Ht; reflexivity |].
    split; [intros Ht; unfold py_or; rewrite Ht; reflexivity |].
    split.
    { destruct (dict_get raw "name") as [| | | |s| |]; try discriminate.
      intros _. unfold py_or. cbn [truthy].
      destruct (String.eqb_spec s ""); cbn [negb].
      - exists "Unknown". split; [reflexivity | discriminate].
      - exists s. split; [reflexivity | assumption]. }
    split; [discriminate |].
    split; [reflexivity |].
    repeat split.
Qed.

Lemma C10_normalize_store_item_witness :
  exists item,
    _normalize_store_item [("id", PyInt 7); ("price", PyInt 249)] = Ok item
    /\ name item = PyStr "Unknown"
    /\ store_price item = Some (249 / 100)%float.
Proof.
  destruct (C10_normalize_store_item [("id", PyInt 7); ("price", PyInt 249)])
    as (item & Hitem & Hname & _ & _ & Hprice & _).
  - intros val [= <-]. exists 249%float. reflexivity.
  - exists item. split; [exact Hitem |]. split.
    + apply Hname. reflexivity.
    + exact (Hprice (PyInt 249) 249%float eq_refl eq_refl).
Defined.

(** ** Percent-plus-encoding *)

Lemma replace_char_app (old new : ascii) (a b : string) :
  replace_char old new (a ++ b)%string
  = (replace_char old new a ++ replace_char old new b)%string.
Proof.
  induction a as [|c a IH]; cbn; [reflexivity |]. rewrite IH. reflexivity.
Qed.

Lemma quote_space_char (c : ascii) :
  replace_char " " "+"
    (if always_safe c || mem_char c " " then String c "" else percent_encode c)
  = if Ascii.eqb c " " then "+"
    else if always_safe c then String c "" else percent_encode c.
Proof.
  destruct c as [[] [] [] [] [] [] [] []]; vm_compute; reflexivity.
Qed.

Lemma quote_space_plus (s : string) :
  replace_char " " "+" (quote " " s) = plus_encode s.
Proof.
  induction s as [|c s IH]; cbn [quote plus_encode]; [reflexivity |].
  rewrite replace_char_app, quote_space_char, IH. reflexivity.
Qed.

Lemma quote_no_space (s : string) :
  mem_char " " s = false -> quote "" s = plus_encode s.
Proof.
  induction s as [|c s IH]; cbn [quote plus_encode mem_char]; [reflexivity |].
  intros H. apply orb_false_iff in H. destruct H as [Hc Hs].
  rewrite Ascii.eqb_sym in Hc. rewrite Hc, orb_false_r, (IH Hs). reflexivity.
Qed.

Lemma quote_plus_encode (s : string) : quote_plus s = plus_encode s.
Proof.
  unfold quote_plus. destruct (mem_char " " s) eqn:H; cbn [negb].
  - apply quote_space_plus.
  - apply quote_no_space, H.
Qed.

(** ** The CS.Deals URL (C4) *)

(** C4. For a document whose name is a non-empty string the CS.Deals URL is
    the search URL built from the percent-plus-encoded name with the fixed
    query parameters, whatever the price entries and the top-level fields
    hold. *)
Theorem C4_csdeals_url_synthesized :
  forall (details : dict) (n : string),
    dict_get details "name" = PyStr n -> n <> "" ->
    MarketUrls.csdeals (extract_market_urls details)
    = Some ("https://cs.deals/new/market?game=rust&sort=newest&sort_desc=1&exact_match=0&name="
            ++ plus_encode n)%string.
Proof.
  intros details n Hname Hn. unfold extract_market_urls. rewrite Hname.
  cbn [nonempty_str]. destruct (String.eqb_spec n ""); [contradiction |].
  cbn [MarketUrls.csdeals]. rewrite quote_plus_encode. reflexivity.
Qed.

Lemma C4_csdeals_url_synthesized_witness :
  MarketUrls.csdeals (extract_market_urls sample_details)
  = Some "https://cs.deals/new/market?game=rust&sort=newest&sort_desc=1&exact_match=0&name=Tempered+AK47".
Proof.
  rewrite (C4_csdeals_url_synthesized sample_details "Tempered AK47" eq_refl
             ltac:(discriminate)).
  reflexivity.
Defined.

(** A CS.Deals link in the source data is not used, a name of reserved
    characters is encoded, and without a name there is no CS.Deals URL. *)
Example csdeals_url_examples :
  extract_market_urls
    [ ("name", PyStr "Big Grin & Co/50%");
      ("csdealsUrl", PyStr "https://cs.deals/item/9");
      ("sellPrices",
        PyList [ market_entry "CSDealsMarketplace" (PyInt 305)
                   [("url", PyStr "https://cs.deals/item/9")] ]) ]
  = MarketUrls.mk
      (Some "https://steamcommunity.com/market/listings/252490/Big%20Grin%20%26%20Co%2F50%25")
      (Some "https://skinport.com/rust?search=Big%20Grin%20%26%20Co%2F50%25")
      (Some "https://cs.deals/new/market?game=rust&sort=newest&sort_desc=1&exact_match=0&name=Big+Grin+%26+Co%2F50%25")
  /\ extract_market_urls
       [ ("sellPrices",
           PyList [ market_entry "CSDealsMarketplace" (PyInt 305)
                      [("url", PyStr "https://cs.deals/item/9")] ]) ]
     = MarketUrls.mk None None None.
Proof.
  split; vm_compute; reflexivity.
Qed.

(** ** Reversal and stripping of strings *)

Lemma list_ascii_of_string_app (a b : string) :
  list_ascii_of_string (a ++ b)%string
  = list_ascii_of_string a ++ list_ascii_of_string b.
Proof.
  induction a as [|c a IH]; cbn; [reflexivity |]. rewrite IH. reflexivity.
Qed.

Lemma string_of_list_ascii_app (l1 l2 : list ascii) :
  string_of_list_ascii (l1 ++ l2)
  = (string_of_list_ascii l1 ++ string_of_list_ascii l2)%string.
Proof.
  induction l1 as [|c l1 IH]; cbn; [reflexivity |]. rewrite IH. reflexivity.
Qed.

Lemma string_rev_app (a b : string) :
  string_rev (a ++ b)%string = (string_rev b ++ string_rev a)%string.
Proof.
  unfold string_rev.
  rewrite list_ascii_of_string_app, rev_app_distr, string_of_list_ascii_app.
  reflexivity.
Qed.

Lemma string_rev_involutive (s : string) : string_rev (string_rev s) = s.
Proof.
  unfold string_rev.
  rewrite list_ascii_of_string_of_list_ascii, rev_involutive.
  apply string_of_list_ascii_of_string.
Qed.

Lemma string_rev_empty (s : string) : string_rev s = "" -> s = "".
Proof.
  intros H. rewrite <- (string_rev_involutive s), H. reflexivity.
Qed.

Lemma string_app_empty_r (s : string) : (s ++ "")%string = s.
Proof.
  induction s as [|c s IH]; cbn; [reflexivity |]. rewrite IH. reflexivity.
Qed.

Lemma string_app_assoc (a b c : string) :
  ((a ++ b) ++ c)%string = (a ++ (b ++ c))%string.
Proof.
  induction a as [|x a IH]; cbn; [reflexivity |]. rewrite IH. reflexivity.
Qed.

Lemma made_of_app (ws : list string) (a b : string) :
  made_of ws a -> made_of ws b -> made_of ws (a ++ b)%string.
Proof.
  induction 1 as [|w s Hw _ IH]; intros Hb; cbn; [exact Hb |].
  rewrite string_app_assoc. constructor; [exact Hw | exact (IH Hb)].
Qed.

Lemma made_of_rev (ws : list string) (s : string) :
  made_of (map string_rev ws) s -> made_of ws (string_rev s).
Proof.
  induction 1 as [|w s Hw _ IH]; [constructor |].
  rewrite string_rev_app. apply made_of_app; [exact IH |].
  apply in_map_iff in Hw. destruct Hw as (w0 & <- & Hw0).
  rewrite string_rev_involutive, <- (string_app_empty_r w0).
  constructor; [exact Hw0 | constructor].
Qed.

Lemma mem_string_in (s : string) (l : list string) :
  mem_string s l = true -> In s l.
Proof.
  unfold mem_string. intros H. apply existsb_exists in H.
  destruct H as (x & Hx & Heq). apply String.eqb_eq in Heq. subst x. exact Hx.
Qed.

(** What [lstrip_by] leaves is a suffix that it leaves unchanged, and what
    it drops is made of [ws]. *)
Lemma lstrip_by_spec (ws : list string) (n : nat) :
  forall s, (String.length s <= n)%nat ->
    lstrip_by ws (lstrip_by ws s) = lstrip_by ws s
    /\ exists dropped, made_of ws dropped
                       /\ s = (dropped ++ lstrip_by ws s)%string.
Proof.
  induction n as [|n IH]; intros s Hlen.
  - destruct s; [| cbn in Hlen; lia]. cbn. split; [reflexivity |].
    exists "". split; [constructor | reflexivity].
  - destruct s as [|a r]; [cbn; split; [reflexivity |];
                           exists ""; split; [constructor | reflexivity] |].
    cbn in Hlen. cbn [lstrip_by].
    destruct (mem_string (String a "") ws) eqn:H1.
    { destruct (IH r ltac:(lia)) as (Hid & d & Hd & Hr). split; [exact Hid |].
      exists (String a "" ++ d)%string. split.
      - constructor; [exact (mem_string_in _ _ H1) | exact Hd].
      - cbn. rewrite <- Hr. reflexivity. }
    destruct r as [|b r2].
    { split; [cbn [lstrip_by]; rewrite H1; reflexivity |].
      exists "". split; [constructor | reflexivity]. }
    destruct (mem_string (String a (String b "")) ws) eqn:H2.
    { cbn in Hlen. destruct (IH r2 ltac:(lia)) as (Hid & d & Hd & Hr).
      split; [exact Hid |].
      exists (String a (String b "") ++ d)%string. split.
      - constructor; [exact (mem_string_in _ _ H2) | exact Hd].
      - cbn. rewrite <- Hr. reflexivity. }
    destruct r2 as [|c r3].
    { split; [cbn [lstrip_by]; rewrite H1, H2; reflexivity |].
      exists "". split; [constructor | reflexivity]. }
    destruct (mem_string (String a (String b (String c ""))) ws) eqn:H3.
    { cbn in Hlen. destruct (IH r3 ltac:(lia)) as (Hid & d & Hd & Hr).
      split; [exact Hid |].
      exists (String a (String b (String c "")) ++ d)%string. split.
      - constructor; [exact (mem_string_in _ _ H3) | exact Hd].
      - cbn. rewrite <- Hr. reflexivity. }
    split; [cbn [lstrip_by]; rewrite H1, H2, H3; reflexivity |].
    exists "". split; [constructor | reflexivity].
Qed.

Lemma lstrip_by_idempotent (ws : list string) (s : string) :
  lstrip_by ws (lstrip_by ws s) = lstrip_by ws s.
Proof.
  exact (proj1 (lstrip_by_spec ws (String.length s) s (le_n _))).
Qed.

Lemma lstrip_by_empty (ws : list string) (s : string) :
  lstrip_by ws s = "" -> made_of ws s.
Proof.
  intros H.
  destruct (lstrip_by_spec ws (String.length s) s (le_n _)) as (_ & d & Hd & Hs).
  rewrite H, string_app_empty_r in Hs. subst s. exact Hd.
Qed.

Lemma lstrip_whitespace (w s : string) :
  In w whitespace -> lstrip (w ++ s)%string = lstrip s.
Proof.
  unfold whitespace. cbn [In]. intros H.
  repeat (destruct H as [<- | H]; [reflexivity |]). destruct H.
Qed.

Lemma lstrip_only_whitespace (s : string) : only_whitespace s -> lstrip s = "".
Proof.
  induction 1 as [|w s Hw _ IH]; [reflexivity |].
  rewrite (lstrip_whitespace w s Hw). exact IH.
Qed.

(** [strip] leaves nothing exactly of the strings made of whitespace. *)
Lemma py_strip_empty_iff (s : string) : py_strip s = "" <-> only_whitespace s.
Proof.
  unfold py_strip. split.
  - intros H. unfold rstrip in H. apply string_rev_empty in H.
    apply lstrip_by_empty, made_of_rev in H.
    rewrite string_rev_involutive in H.
    apply lstrip_only_whitespace in H. unfold lstrip in H.
    rewrite lstrip_by_idempotent in H. apply lstrip_by_empty. exact H.
  - intros H. rewrite (lstrip_only_whitespace s H). reflexivity.
Qed.

Example py_strip_examples :
  py_strip "  Tempered AK47 " = "Tempered AK47"
  /\ py_strip (string_of_bytes [9; 194; 160; 65; 75; 226; 128; 137; 10]%N) = "AK"
  /\ py_strip (string_of_bytes [32; 227; 128; 128; 13]%N) = "".
Proof.
  repeat split; vm_compute; reflexivity.
Qed.

(** ** The order of strings *)

Lemma N_of_ascii_inj (a b : ascii) : N_of_ascii a = N_of_ascii b -> a = b.
Proof.
  intros H. rewrite <- (ascii_N_embedding a), <- (ascii_N_embedding b), H.
  reflexivity.
Qed.

Ltac ascii_order :=
  unfold Ascii.compare in *;
  repeat match goal with
  | H : (_ ?= _)%N = Eq |- _ => apply N.compare_eq_iff, N_of_ascii_inj in H
  | H : (?a ?= ?b)%N = Lt |- _ =>
      assert (a < b)%N by (apply N.compare_lt_iff; exact H); clear H
  | H : (?a ?= ?b)%N = Gt |- _ =>
      assert (b < a)%N by (apply N.compare_gt_iff; exact H); clear H
  end.

Lemma string_leb_trans (a b c : string) :
  String.leb a b = true -> String.leb b c = true -> String.leb a c = true.
Proof.
  unfold String.leb. revert b c.
  induction a as [|x a IH]; intros [|y b] [|z c]; cbn; try congruence.
  destruct (Ascii.compare x y) eqn:Hxy, (Ascii.compare y z) eqn:Hyz,
    (Ascii.compare x z) eqn:Hxz;
    try (intros _ _; reflexivity);
    try (exfalso; ascii_order; subst; lia);
    try discriminate.
  apply IH.
Qed.

Lemma string_ltb_false_leb (a b : string) :
  String.ltb a b = false -> String.leb b a = true.
Proof.
  unfold String.ltb, String.leb. rewrite (String.compare_antisym b a).
  destruct (String.compare a b); cbn; congruence.
Qed.

Lemma string_ltb_leb (a b : string) :
  String.ltb a b = true -> String.leb a b = true.
Proof.
  unfold String.ltb, String.leb. destruct (String.compare a b); congruence.
Qed.

Lemma string_leb_refl (a : string) : String.leb a a = true.
Proof.
  destruct (String.leb_total a a); assumption.
Qed.

(** ** The stable sort and its last item *)

Section Sorted.

Context {A : Type} (key : A -> string).

Let key_le (a b : A) : Prop := String.leb (key a) (key b) = true.

Lemma insert_by_in (x z : A) (l : list A) :
  In z (insert_by key x l) <-> z = x \/ In z l.
Proof.
  induction l as [|y l IH]; cbn.
  - intuition auto.
  - destruct (String.ltb (key x) (key y)); cbn; [intuition auto |].
    rewrite IH. intuition auto.
Qed.

Lemma insert_by_sorted (x : A) (l : list A) :
  StronglySorted key_le l -> StronglySorted key_le (insert_by key x l).
Proof.
  induction 1 as [|y l Hl IH Hy]; cbn.
  - constructor; constructor.
  - destruct (String.ltb (key x) (key y)) eqn:Hxy.
    + constructor; [constructor; assumption |].
      apply string_ltb_leb in Hxy. constructor; [exact Hxy |].
      rewrite Forall_forall in Hy |- *. intros z Hz.
      exact (string_leb_trans _ _ _ Hxy (Hy z Hz)).
    + constructor; [exact IH |].
      rewrite Forall_forall in Hy |- *. intros z Hz.
      apply insert_by_in in Hz. destruct Hz as [-> | Hz].
      * exact (string_ltb_false_leb _ _ Hxy).
      * exact (Hy z Hz).
Qed.

Lemma sorted_acc (l acc : list A) :
  StronglySorted key_le acc ->
  StronglySorted key_le (fold_left (fun acc x => insert_by key x acc) l acc)
  /\ forall z, In z (fold_left (fun acc x => insert_by key x acc) l acc)
               <-> In z l \/ In z acc.
Proof.
  revert acc. induction l as [|x l IH]; intros acc Hacc; cbn [fold_left].
  - split; [exact Hacc |]. cbn. intuition auto.
  - destruct (IH (insert_by key x acc) (insert_by_sorted x acc Hacc))
      as (Hs & Hin).
    split; [exact Hs |]. intros z. rewrite Hin, insert_by_in. cbn.
    intuition auto.
Qed.

Lemma sorted_in (l : list A) (z : A) : In z (sorted key l) <-> In z l.
Proof.
  unfold sorted. destruct (sorted_acc l [] (SSorted_nil _)) as (_ & Hin).
  rewrite Hin. cbn. intuition auto.
Qed.

Lemma last_in (l : list A) (d : A) : l <> [] -> In (last l d) l.
Proof.
  induction l as [|x l IH]; [congruence |]. intros _.
  destruct l as [|y l]; [left; reflexivity |].
  right. apply IH. discriminate.
Qed.

Lemma last_greatest (l : list A) (d : A) :
  StronglySorted key_le l -> forall z, In z l -> key_le z (last l d).
Proof.
  induction 1 as [|x l Hl IH Hx]; intros z Hz; [destruct Hz |].
  destruct l as [|y l].
  - destruct Hz as [<- | []]. apply string_leb_refl.
  - change (last (x :: y :: l) d) with (last (y :: l) d).
    destruct Hz as [<- | Hz]; [| exact (IH z Hz)].
    rewrite Forall_forall in Hx. apply Hx, last_in. discriminate.
Qed.

(** The last item of the sorted list is one of the list, of greatest key. *)
Lemma last_sorted (l : list A) (d : A) :
  l <> [] ->
  In (last (sorted key l) d) l
  /\ forall z, In z l -> String.leb (key z) (key (last (sorted key l) d)) = true.
Proof.
  intros Hl.
  assert (Hne : sorted key l <> []).
  { destruct l as [|x l]; [congruence |]. intros Hnil.
    assert (Hx : In x (sorted key (x :: l))) by (apply sorted_in; left; reflexivity).
    rewrite Hnil in Hx. destruct Hx. }
  split.
  - apply sorted_in, last_in, Hne.
  - intros z Hz. apply (last_greatest (sorted key l) d).
    + exact (proj1 (sorted_acc l [] (SSorted_nil _))).
    + apply sorted_in, Hz.
Qed.

End Sorted.

(** ** The store of a date (C5) *)

Section StoreForDate.

Variable http : string -> http_outcome.
Variable repr_other : value -> string.

Lemma matching_stores_filter (target_str : string) (stores : list value) :
  Forall (fun s => is_dict s = true) stores ->
  exists matches,
    matching_stores stores target_str = Ok matches
    /\ map PyDict matches = filter (on_date target_str) stores.
Proof.
  induction 1 as [|store stores Hd _ IH]; cbn [matching_stores filter].
  - exists []. split; reflexivity.
  - destruct IH as (matches & Hm & Hf).
    destruct store as [| | | | | |s]; try discriminate.
    rewrite Hm. cbn [bind on_date].
    destruct (dict_get s "start") as [| | | |start| |];
      try (exists matches; split; [reflexivity | exact Hf]).
    destruct (before_char "T" start =? target_str)%string.
    + exists (s :: matches). split; [reflexivity |]. cbn. rewrite Hf. reflexivity.
    + exists matches. split; [reflexivity | exact Hf].
Qed.

Lemma start_key_on_date (target_str : string) (s : dict) :
  on_date target_str (PyDict s) = true ->
  start_key repr_other s = start_of s.
Proof.
  unfold on_date, start_key, start_of, py_or.
  destruct (dict_get s "start") as [| | | |start| |]; try discriminate.
  intros _. cbn [truthy]. destruct (start =? "")%string eqn:He; cbn.
  - apply String.eqb_eq in He. subst start. reflexivity.
  - reflexivity.
Qed.

(** C5. The two stores of 2025-11-06 give the later one, in either order.
    In general, of a store list of dicts, the matches are the stores whose
    start has the target date before its ["T"]; with no match the result is
    the empty item list and no identifier; otherwise the chosen store is a
    match whose start timestamp is the greatest in the order of strings,
    and the result is made of the items and the identifier of that store. *)
Theorem C5_store_for_date :
  (isoformat (mkDate 2025 11 6) = "2025-11-06"
   /\ latest_store repr_other
        [ store_entry "2025-11-06T10:00:00Z" "2025-11-06-1000";
          store_entry "2025-11-06T18:00:00Z" "2025-11-06-1800" ]
      = store_entry "2025-11-06T18:00:00Z" "2025-11-06-1800"
   /\ latest_store repr_other
        [ store_entry "2025-11-06T18:00:00Z" "2025-11-06-1800";
          store_entry "2025-11-06T10:00:00Z" "2025-11-06-1000" ]
      = store_entry "2025-11-06T18:00:00Z" "2025-11-06-1800")
  /\ forall (target : date) (log log1 : list string) (stores : list value),
       fetch_store_list_raw http log = (Ok stores, log1) ->
       Forall (fun s => is_dict s = true) stores ->
       exists matches : list dict,
         map PyDict matches = filter (on_date (isoformat target)) stores
         /\ (matches = [] ->
             fetch_store_items_for_date http repr_other target log
             = (Ok ([], None), log1))
         /\ (matches <> [] ->
             exists chosen : dict,
               chosen = latest_store repr_other matches
               /\ In chosen matches
               /\ (forall s, In s matches ->
                     String.leb (start_of s) (start_of chosen) = true)
               /\ fetch_store_items_for_date http repr_other target log
                  = if truthy (dict_get chosen "id")
                    then
                      match fetch_store_items_by_id http
                              (py_str repr_other (dict_get chosen "id")) log1 with
                      | (Ok items, log2) =>
                          (Ok (items, Some (py_str repr_other (dict_get chosen "id"))),
                           log2)
                      | (Raise e, log2) => (Raise e, log2)
                      end
                    else (Ok ([], None), log1)).
Proof.
  split; [repeat split; vm_compute; reflexivity |].
  intros target log log1 stores Hlist Hdicts.
  destruct (matching_stores_filter (isoformat target) stores Hdicts)
    as (matches & Hm & Hf).
  exists matches. split; [exact Hf |].
  unfold fetch_store_items_for_date, io_bind. rewrite Hlist.
  split.
  - intros ->. destruct stores as [|s stores]; [reflexivity |].
    unfold io_lift. rewrite Hm. reflexivity.
  - intros Hne.
    assert (Hstores : stores <> []).
    { intros ->. cbn in Hf. destruct matches; [congruence | discriminate]. }
    destruct stores as [|s0 stores]; [congruence |].
    unfold io_lift. rewrite Hm.
    destruct matches as [|m0 matches]; [congruence |].
    set (ms := m0 :: matches) in *.
    destruct (last_sorted (start_key repr_other) ms [] Hne) as (Hin & Hmax).
    fold (latest_store repr_other ms) in Hin, Hmax.
    assert (Hon : forall s, In s ms -> on_date (isoformat target) (PyDict s) = true).
    { intros s Hs. apply (in_map PyDict) in Hs. rewrite Hf in Hs.
      apply filter_In in Hs. exact (proj2 Hs). }
    exists (latest_store repr_other ms).
    split; [reflexivity |]. split; [exact Hin |]. split.
    + intros s Hs.
      rewrite <- (start_key_on_date _ _ (Hon s Hs)).
      rewrite <- (start_key_on_date _ _ (Hon _ Hin)).
      exact (Hmax s Hs).
    + unfold io_ret.
      destruct (truthy (dict_get (latest_store repr_other ms) "id"));
        cbn [negb]; [| reflexivity].
      destruct (fetch_store_items_by_id http _ log1) as [[items|e] log2];
        reflexivity.
Qed.

End StoreForDate.

Lemma C5_store_for_date_witness :
  fetch_store_items_for_date sample_http sample_repr (mkDate 2025 11 6) []
  = (Ok ([ mkStoreItem PyNone (PyStr "Tempered AK47") (Some (249 / 100)%float)
             PyNone PyNone PyNone PyNone PyNone ],
         Some "2025-11-06-1800"),
     [ "https://rust.scmm.app/api/store";
       "https://rust.scmm.app/api/store/2025-11-06-1800" ]).
Proof.
  destruct (proj2 (C5_store_for_date sample_http sample_repr)
              (mkDate 2025 11 6) [] [ "https://rust.scmm.app/api/store" ]
              sample_stores ltac:(vm_compute; reflexivity)
              ltac:(repeat constructor))
    as (matches & Hf & _ & Hsome).
  vm_compute. reflexivity.
Defined.

(** A store of the list that is not a dict has no [get]; stores of one start
    timestamp give the one that comes last in the list. *)
Example store_for_date_examples :
  matching_stores [PyDict (store_entry "2025-11-06T10:00:00Z" "a"); PyInt 5]
    "2025-11-06"
  = Raise (AttributeError "'int' object has no attribute 'get'")
  /\ latest_store sample_repr
       [ store_entry "2025-11-06T18:00:00Z" "first";
         store_entry "2025-11-06T10:00:00Z" "early";
         store_entry "2025-11-06T18:00:00Z" "second" ]
     = store_entry "2025-11-06T18:00:00Z" "second"
  /\ fetch_store_items_for_date sample_http sample_repr (mkDate 2025 11 7) []
     = (Ok ([], None), ["https://rust.scmm.app/api/store"]).
Proof.
  repeat split; vm_compute; reflexivity.
Qed.

(** ** Item details by name (C6) *)

Section ItemDetailsByName.

Variable http : string -> http_outcome.

Lemma or_empty (name : string) :
  (if (name =? "")%string then "" else name) = name.
Proof.
  destruct (String.eqb_spec name ""); [subst; reflexivity | reflexivity].
Qed.



End ItemDetailsByName.


(** The name is stripped and encoded into the URL; a 404 is told apart from a
    500, which is raised as [_http_get_json] words it. *)
Example fetch_item_details_by_name_examples :
  fetch_item_details_by_name sample_http "  Tempered AK47 " []
  = (Ok sample_details, ["https://rust.scmm.app/api/item/Tempered%20AK47"])
  /\ fetch_item_details_by_name sample_http "No Such Skin" []
     = (Raise (RuntimeError
                 "No item found on SCMM matching 'No Such Skin'. Check the spelling or try a different name."),
        ["https://rust.scmm.app/api/item/No%20Such%20Skin"])
  /\ fetch_item_details_by_name sample_http "Broken" []
     = (Raise (RuntimeError
                 "SCMM responded with HTTP 500 for https://rust.scmm.app/api/item/Broken"),
        ["https://rust.scmm.app/api/item/Broken"]).
Proof.
  repeat split; vm_compute; reflexivity.
Qed.

(** ** The market price lines (C7) *)

(** The render is the price lines joined by newlines. *)
Lemma render_market_lines_lines (d : dict) (bd : Breakdown.t) (flag : bool) :
  d <> [] -> get_market_breakdown d = Ok bd ->
  _render_market_lines (Some d) flag
  = Ok (String.concat newline
          ([store_line bd; steam_line bd]
           ++ if flag then [skinport_line bd; csdeals_line bd] else [])).
Proof.
  intros Hd Hbd. destruct d as [|kv d]; [congruence |].
  unfold _render_market_lines. rewrite Hbd. cbn [bind]. f_equal.
  unfold store_line, steam_line, skinport_line, csdeals_line, price_line,
    delta_note.
  destruct bd as [store steam steam_pct skinport skinport_pct csdeals csdeals_pct].
  cbn [Breakdown.store_price Breakdown.steam_price Breakdown.steam_vs_store_pct
       Breakdown.skinport_price Breakdown.skinport_vs_steam_pct
       Breakdown.csdeals_price Breakdown.csdeals_vs_steam_pct].
  assert (Hnone : forall label p, (label ++ "$" ++ format_f 2 p ++ "")%string
                                  = (label ++ "$" ++ format_f 2 p)%string).
  { intros label p. rewrite string_app_empty_r. reflexivity. }
  destruct store, steam, steam_pct, flag, skinport, skinport_pct, csdeals,
    csdeals_pct;
    cbn [app]; rewrite ?Hnone; reflexivity.
Qed.

Lemma price_line_prefix (label sentinel against : string) (price pct : option float) :
  String.prefix label (price_line label sentinel against price pct) = true.
Proof.
  assert (H : forall tail, String.prefix label (label ++ tail)%string = true).
  { intros tail. induction label as [|c label IH]; cbn.
    - destruct tail; reflexivity.
    - destruct (ascii_dec c c); [exact IH | congruence]. }
  unfold price_line. destruct price; apply H.
Qed.

(** C7. With every field of the breakdown absent and the third-party flag
    false the render is exactly the store line ["**Store:** Unknown"] and the
    Steam line ["**Steam Market:** No data"]. In general the render is the
    store-price line and the Steam line, followed by the Skinport and
    CS.Deals lines when the flag is true and by no other line when it is
    false; each line starts with its label and is its sentinel when its price
    is absent. Without a document the render is the two sentinel lines. *)
Theorem C7_render_market_lines :
  (forall (d : dict) (bd : Breakdown.t),
     get_market_breakdown d = Ok bd -> bd = empty_breakdown ->
     _render_market_lines (Some d) false
     = Ok ("**Store:** Unknown" ++ newline ++ "**Steam Market:** No data")%string)
  /\ (forall (d : dict) (bd : Breakdown.t) (flag : bool),
        d <> [] -> get_market_breakdown d = Ok bd ->
        _render_market_lines (Some d) flag
        = Ok (String.concat newline
                ([store_line bd; steam_line bd]
                 ++ if flag then [skinport_line bd; csdeals_line bd] else []))
        /\ String.prefix "**Store:** " (store_line bd) = true
        /\ String.prefix "**Steam Market:** " (steam_line bd) = true
        /\ String.prefix "**Skinport:** " (skinport_line bd) = true
        /\ String.prefix "**CS.Deals:** " (csdeals_line bd) = true
        /\ (Breakdown.store_price bd = None -> store_line bd = "**Store:** Unknown")
        /\ (Breakdown.steam_price bd = None ->
            steam_line bd = "**Steam Market:** No data")
        /\ (Breakdown.skinport_price bd = None ->
            skinport_line bd = "**Skinport:** No listings")
        /\ (Breakdown.csdeals_price bd = None ->
            csdeals_line bd = "**CS.Deals:** No listings"))
  /\ (forall flag,
        _render_market_lines None flag = Ok no_price_data
        /\ _render_market_lines (Some []) flag = Ok no_price_data).
Proof.
  split; [| split].
  - intros d bd Hbd ->. destruct d as [|kv d]; [reflexivity |].
    rewrite (render_market_lines_lines (kv :: d) empty_breakdown false
               ltac:(discriminate) Hbd).
    reflexivity.
  - intros d bd flag Hd Hbd.
    split; [exact (render_market_lines_lines d bd flag Hd Hbd) |].
    do 4 (split; [apply price_line_prefix |]).
    unfold store_line, steam_line, skinport_line, csdeals_line, price_line.
    repeat split; intros ->; reflexivity.
  - intros flag. split; reflexivity.
Qed.

Lemma C7_render_market_lines_witness :
  _render_market_lines (Some sample_details) true
  = Ok (String.concat newline
          [ "**Store:** $2.49";
            "**Steam Market:** $2.95 (🟢 +18.5% vs store)";
            "**Skinport:** $2.75 (🔴 -6.8% vs Steam)";
            "**CS.Deals:** $3.05 (🟢 +3.4% vs Steam)" ]).
Proof.
  rewrite (proj1 (proj1 (proj2 C7_render_market_lines) sample_details
                    sample_breakdown true ltac:(discriminate)
                    ltac:(vm_compute; reflexivity))).
  vm_compute. reflexivity.
Defined.

(** A document that holds no price at all renders the two sentinel lines. *)
Example render_without_prices :
  _render_market_lines (Some [("name", PyStr "Tempered AK47")]) false
  = Ok ("**Store:** Unknown" ++ newline ++ "**Steam Market:** No data")%string.
Proof.
  vm_compute. reflexivity.
Qed.

(** ** The stats block (C8) *)








(** The block of a document that holds the facts, and the absent block of no
    document. *)
Example stats_block_examples :
  _build_stats_block (Some sample_stats_details)
  = Ok (Some (String.concat newline
                [ "🛒 Released on **2021-03-04** for **$2.49**";
                  "📦 Estimated supply: **123,456**";
                  "👥 Workshop subscribers: **1,500**";
                  "👍 Votes: **1,000** (95% positive)";
                  "👀 Workshop views: **1,000,000**";
                  "🪓 Breaks into 1x Cloth, 2x Metal" ]))
  /\ _build_stats_block None = Ok None
  /\ _build_stats_block (Some []) = Ok None.
Proof.
  repeat split; vm_compute; reflexivity.
Qed.

(** A view count that is an infinite float has the numeric shape and makes
    [int()] raise. *)
Example stats_block_infinite_views :
  _build_stats_block (Some [("views", PyFloat infinity)])
  = Raise (OverflowError "cannot convert float infinity to integer").
Proof.
  vm_compute. reflexivity.
Qed.

(** ** When the breakdown is returned *)

Lemma norm_price_returns (val : value) :
  converts val -> exists r, _norm_price val = Ok r.
Proof.
  intros Hc. unfold _norm_price. destruct (is_number val) eqn:Hn; cbn [negb].
  - destruct (Hc Hn) as (f & Hf). rewrite Hf. eexists. reflexivity.
  - eexists. reflexivity.
Qed.

Lemma scan_entry_returns (st : scan_state) (entry : value) :
  (forall e, entry = PyDict e -> converts (dict_get e "price")) ->
  exists st', scan_entry st entry = Ok st'.
Proof.
  intros Hc. destruct entry as [| | | | | |e]; try (eexists; reflexivity).
  cbn [scan_entry]. destruct (is_False _); [eexists; reflexivity |].
  destruct (norm_price_returns _ (Hc e eq_refl)) as (r & Hr). rewrite Hr.
  cbn [bind]. destruct r as [p|]; [| eexists; reflexivity].
  repeat match goal with
         | |- context [if ?c then _ else _] => destruct c
         end; eexists; reflexivity.
Qed.

Lemma scan_returns (seq : list value) :
  (forall e, In (PyDict e) seq -> converts (dict_get e "price")) ->
  forall st, exists st', scan seq st = Ok st'.
Proof.
  induction seq as [|entry rest IH]; intros Hc st; cbn [scan].
  - eexists. reflexivity.
  - destruct (scan_entry_returns st entry) as (st1 & H1).
    { intros e ->. apply Hc. left. reflexivity. }
    rewrite H1. cbn [bind]. apply IH. intros e He. apply Hc. right. exact He.
Qed.

(** [get_market_breakdown] returns a breakdown as soon as the store price and
    the prices of the entries convert to floats, that is, when none of them is
    an integer past the range of a binary64. *)
Lemma get_market_breakdown_returns (details : dict) :
  converts (dict_get details "storePrice") ->
  (forall e, In (PyDict e) (price_entries details) ->
             converts (dict_get e "price")) ->
  exists bd, get_market_breakdown details = Ok bd.
Proof.
  intros Hstore Hentries. unfold get_market_breakdown.
  assert (Hs : exists r, extract_store_price_from_details details = Ok r).
  { exact (norm_price_returns _ Hstore). }
  destruct Hs as (store & ->). cbn [bind].
  assert (Hkey : forall key st,
             (forall e, In (PyDict e) (entries_of details key) ->
                        converts (dict_get e "price")) ->
             exists st', scan_key details key st = Ok st').
  { intros key st Hc. unfold scan_key. unfold entries_of in Hc.
    destruct (dict_get details key); try (eexists; reflexivity).
    apply scan_returns, Hc. }
  destruct (Hkey "buyPrices" (mkScan None None None)) as (st1 & ->).
  { intros e He. apply Hentries. unfold price_entries. apply in_or_app. left. exact He. }
  cbn [bind].
  destruct (Hkey "sellPrices" st1) as (st2 & ->).
  { intros e He. apply Hentries. unfold price_entries. apply in_or_app. right. exact He. }
  cbn [bind]. eexists. reflexivity.
Qed.

(** A boolean is a number for [isinstance], and an integer past the range of
    a binary64 makes [float()] raise. *)
Example norm_price_bool_and_overflow :
  _norm_price (PyBool true) = Ok (Some 1%float)
  /\ _norm_price (PyStr "2.49") = Ok None
  /\ _norm_price PyNone = Ok None
  /\ _norm_price (PyInt (10 ^ 400))
     = Raise (OverflowError "int too large to convert to float").
Proof.
  repeat split; vm_compute; reflexivity.
Qed.

(** * Further properties of the client *)

(** ** The resolution order of the market URLs *)

Lemma or_else_assoc {A : Type} (a b c : option A) :
  or_else (or_else a b) c = or_else a (or_else b c).
Proof.
  destruct a; reflexivity.
Qed.

Lemma or_else_none_r {A : Type} (a : option A) : or_else a None = a.
Proof.
  destruct a; reflexivity.
Qed.

Lemma first_some_app {A B : Type} (f : A -> option B) (l1 l2 : list A) :
  first_some f (l1 ++ l2) = or_else (first_some f l1) (first_some f l2).
Proof.
  induction l1 as [|x l1 IH]; cbn; [reflexivity |].
  destruct (f x); [reflexivity | exact IH].
Qed.

Lemma url_entry_venue (v : venue) (urls : MarketUrls.t) (entry : value) :
  market_url v (url_entry urls entry)
  = match v with
    | CSDeals => market_url v urls
    | _ => or_else (market_url v urls) (entry_url v entry)
    end.
Proof.
  destruct urls as [us uk uc].
  destruct entry as [| | | | | |e]; cbn [url_entry entry_url];
    try (destruct v; cbn; rewrite ?or_else_none_r; reflexivity).
  unfold has_tag.
  destruct (nonempty_str _) as [u|];
    [| destruct v; cbn [venue_tags existsb];
       repeat match goal with
              | |- context [if ?c then _ else _] => destruct c
              end; cbn; rewrite ?or_else_none_r; reflexivity].
  destruct v; cbn [venue_tags existsb market_url];
    tag_cases (dict_get e "marketType"); cbn;
    rewrite ?or_else_none_r; try reflexivity;
    destruct us, uk; reflexivity.
Qed.

Lemma fold_url_entry_venue (v : venue) (seq : list value) :
  forall urls,
    market_url v (fold_left url_entry seq urls)
    = match v with
      | CSDeals => market_url v urls
      | _ => or_else (market_url v urls) (first_some (entry_url v) seq)
      end.
Proof.
  induction seq as [|entry seq IH]; intros urls; cbn [fold_left first_some].
  - destruct v; rewrite ?or_else_none_r; reflexivity.
  - rewrite IH, url_entry_venue.
    destruct v; try reflexivity;
      rewrite or_else_assoc; destruct (entry_url _ entry); reflexivity.
Qed.

Lemma scan_urls_venue (v : venue) (details : dict) :
  market_url v
    (fold_left
       (fun urls key =>
          match dict_get details key with
          | PyList seq => fold_left url_entry seq urls
          | _ => urls
          end)
       ["buyPrices"; "sellPrices"] (MarketUrls.mk None None None))
  = match v with
    | CSDeals => None
    | _ => first_some (entry_url v) (price_entries details)
    end.
Proof.
  assert (Hkey : forall key urls,
             match dict_get details key with
             | PyList seq => fold_left url_entry seq urls
             | _ => urls
             end = fold_left url_entry (entries_of details key) urls).
  { intros key urls. unfold entries_of. destruct (dict_get details key); reflexivity. }
  cbn [fold_left]. rewrite !Hkey, !fold_url_entry_venue.
  unfold price_entries. rewrite first_some_app.
  destruct v; cbn [market_url MarketUrls.steam MarketUrls.skinport
                   MarketUrls.csdeals or_else]; reflexivity.
Qed.

(** The Steam and Skinport URLs are resolved in three steps, the first that
    gives a URL winning: the first price entry of the buy-price list, then of
    the sell-price list, that carries the venue's tag and a URL; the first
    top-level fallback field that holds a non-empty string; the URL built
    from the percent-encoded item name. *)
Theorem market_urls_resolution_order :
  forall details : dict,
    MarketUrls.steam (extract_market_urls details)
    = or_else (first_some (entry_url Steam) (price_entries details))
        (or_else
           (first_url details ["steamMarketUrl"; "steamMarketURL"; "steamUrl"])
           (name_url "https://steamcommunity.com/market/listings/252490/" details))
    /\ MarketUrls.skinport (extract_market_urls details)
       = or_else (first_some (entry_url Skinport) (price_entries details))
           (or_else (first_url details ["skinportUrl"; "skinPortUrl"])
              (name_url "https://skinport.com/rust?search=" details)).
Proof.
  intros details. unfold extract_market_urls, name_url.
  pose proof (scan_urls_venue Steam details) as Hs.
  pose proof (scan_urls_venue Skinport details) as Hk.
  cbn [market_url] in Hs, Hk.
  destruct (nonempty_str (dict_get details "name")) as [n|];
    cbn [MarketUrls.steam MarketUrls.skinport]; rewrite Hs, Hk;
    rewrite ?or_else_assoc, ?or_else_none_r; split; reflexivity.
Qed.

(** ** Which market URLs are present *)

Lemma nonempty_str_nonempty (v : value) (u : string) :
  nonempty_str v = Some u -> u <> "".
Proof.
  destruct v as [| | | |s| |]; cbn; try discriminate.
  destruct (String.eqb_spec s ""); [discriminate |]. intros [= <-]. assumption.
Qed.

Lemma first_url_nonempty (details : dict) (candidates : list string) (u : string) :
  first_url details candidates = Some u -> u <> "".
Proof.
  induction candidates as [|field rest IH]; cbn; [discriminate |].
  destruct (nonempty_str (dict_get details field)) eqn:H.
  - intros [= <-]. exact (nonempty_str_nonempty _ _ H).
  - exact IH.
Qed.

Lemma first_entry_url_nonempty (v : venue) (seq : list value) (u : string) :
  first_some (entry_url v) seq = Some u -> u <> "".
Proof.
  induction seq as [|entry rest IH]; cbn; [discriminate |].
  destruct (entry_url v entry) eqn:H; [| exact IH].
  intros [= <-]. destruct entry as [| | | | | |e]; cbn in H; try discriminate.
  destruct (has_tag v e); [| discriminate].
  exact (nonempty_str_nonempty _ _ H).
Qed.

Lemma or_else_some {A : Type} (P : A -> Prop) (a b : option A) (x : A) :
  (forall y, a = Some y -> P y) -> (forall y, b = Some y -> P y) ->
  or_else a b = Some x -> P x.
Proof.
  intros Ha Hb. destruct a; cbn; intros H; [apply Ha | apply Hb]; exact H.
Qed.

Lemma named_urls_present (details : dict) (n : string) :
  nonempty_str (dict_get details "name") = Some n ->
  exists a b c,
    extract_market_urls details = MarketUrls.mk (Some a) (Some b) (Some c).
Proof.
  intros Hn. unfold extract_market_urls. rewrite Hn.
  cbn [MarketUrls.steam MarketUrls.skinport MarketUrls.csdeals].
  destruct (or_else (MarketUrls.steam _) (first_url _ _)) as [a|];
    destruct (or_else (MarketUrls.skinport _) (first_url _ _)) as [b|];
    cbn; do 3 eexists; reflexivity.
Qed.

Lemma unnamed_csdeals_absent (details : dict) :
  nonempty_str (dict_get details "name") = None ->
  MarketUrls.csdeals (extract_market_urls details) = None.
Proof.
  intros Hn. unfold extract_market_urls. rewrite Hn.
  cbn [MarketUrls.csdeals]. exact (scan_urls_venue CSDeals details).
Qed.

Lemma market_url_nonempty (details : dict) (v : venue) (u : string) :
  market_url v (extract_market_urls details) = Some u -> u <> "".
Proof.
  pose proof (scan_urls_venue Steam details) as Hs.
  pose proof (scan_urls_venue Skinport details) as Hk.
  pose proof (scan_urls_venue CSDeals details) as Hc.
  cbn [market_url] in Hs, Hk, Hc.
  assert (Hsrc : forall w cands y,
             or_else (first_some (entry_url w) (price_entries details))
               (first_url details cands) = Some y -> y <> "").
  { intros w cands y H.
    apply (or_else_some (fun z => z <> "") _ _ _
             (first_entry_url_nonempty _ _) (first_url_nonempty _ _) H). }
  unfold extract_market_urls.
  destruct (nonempty_str (dict_get details "name")) as [n|];
    destruct v; cbn [market_url MarketUrls.steam MarketUrls.skinport
                     MarketUrls.csdeals];
    rewrite ?Hs, ?Hk, ?Hc; intros H;
    try discriminate H;
    try exact (Hsrc _ _ _ H);
    try (injection H as <-; discriminate);
    (revert H; apply (or_else_some (fun z => z <> ""));
     [apply Hsrc | intros y [= <-]; discriminate]).
Qed.

(** With a name that is a non-empty string all three URLs are present;
    without one there is no CS.Deals URL, whatever the source data holds;
    and a URL that is present is never the empty string. *)
Theorem market_urls_presence :
  forall details : dict,
    (forall n, nonempty_str (dict_get details "name") = Some n ->
       exists a b c,
         extract_market_urls details = MarketUrls.mk (Some a) (Some b) (Some c))
    /\ (nonempty_str (dict_get details "name") = None ->
        MarketUrls.csdeals (extract_market_urls details) = None)
    /\ (forall v u,
          market_url v (extract_market_urls details) = Some u -> u <> "").
Proof.
  intros details. split; [| split].
  - apply named_urls_present.
  - apply unnamed_csdeals_absent.
  - apply market_url_nonempty.
Qed.

(** ** The alphabet of the encoded names *)

Lemma string_forall_app (p : ascii -> bool) (a b : string) :
  string_forall p (a ++ b)%string = string_forall p a && string_forall p b.
Proof.
  induction a as [|c a IH]; cbn; [reflexivity |].
  rewrite IH, andb_assoc. reflexivity.
Qed.

Lemma quote_char_safe (c : ascii) :
  string_forall url_char
    (if always_safe c || mem_char c "" then String c "" else percent_encode c)
  = true.
Proof.
  destruct c as [[] [] [] [] [] [] [] []]; vm_compute; reflexivity.
Qed.

Lemma plus_encode_char_safe (c : ascii) :
  string_forall url_plus_char
    (if Ascii.eqb c " " then "+"
     else if always_safe c then String c "" else percent_encode c)
  = true.
Proof.
  destruct c as [[] [] [] [] [] [] [] []]; vm_compute; reflexivity.
Qed.

Lemma quote_safe (s : string) : string_forall url_char (quote "" s) = true.
Proof.
  induction s as [|c s IH]; cbn [quote]; [reflexivity |].
  rewrite string_forall_app, quote_char_safe, IH. reflexivity.
Qed.

Lemma plus_encode_safe (s : string) :
  string_forall url_plus_char (plus_encode s) = true.
Proof.
  induction s as [|c s IH]; cbn [plus_encode]; [reflexivity |].
  rewrite string_forall_app, plus_encode_char_safe, IH. reflexivity.
Qed.

Lemma string_forall_mem (p : ascii -> bool) (s : string) (c : ascii) :
  string_forall p s = true -> p c = false -> mem_char c s = false.
Proof.
  induction s as [|d s IH]; cbn; [reflexivity |].
  intros H Hc. apply andb_true_iff in H. destruct H as [Hd Hs].
  rewrite (IH Hs Hc), orb_false_r.
  destruct (Ascii.eqb_spec c d); [subst; congruence | reflexivity].
Qed.

(** A name reaches a URL only through its encoding. The Steam and Skinport
    URLs are a URL of the source data or their fixed prefix followed by the
    encoded name, and the CS.Deals URL is its fixed prefix followed by the
    encoded name; the encoded name is made of unreserved characters and
    percent signs, with plus signs too for CS.Deals. So no name can bring a
    slash, a question mark, a hash, an ampersand, an equals sign or a space
    into a URL. *)
Theorem encoded_names_are_url_safe :
  forall (details : dict) (n : string),
    nonempty_str (dict_get details "name") = Some n ->
    exists steam_name skinport_name csdeals_name : string,
      MarketUrls.steam (extract_market_urls details)
      = or_else (first_some (entry_url Steam) (price_entries details))
          (or_else
             (first_url details ["steamMarketUrl"; "steamMarketURL"; "steamUrl"])
             (Some ("https://steamcommunity.com/market/listings/252490/"
                    ++ steam_name)%string))
      /\ MarketUrls.skinport (extract_market_urls details)
         = or_else (first_some (entry_url Skinport) (price_entries details))
             (or_else (first_url details ["skinportUrl"; "skinPortUrl"])
                (Some ("https://skinport.com/rust?search=" ++ skinport_name)%string))
      /\ MarketUrls.csdeals (extract_market_urls details)
         = Some ("https://cs.deals/new/market?game=rust&sort=newest&sort_desc=1&exact_match=0&name="
                 ++ csdeals_name)%string
      /\ string_forall url_char steam_name = true
      /\ string_forall url_char skinport_name = true
      /\ string_forall url_plus_char csdeals_name = true
      /\ (forall c, mem_char c "/?#&= " = true ->
            mem_char c steam_name = false
            /\ mem_char c skinport_name = false
            /\ mem_char c csdeals_name = false).
Proof.
  intros details n Hn.
  exists (quote "" n), (quote "" n), (plus_encode n).
  pose proof (scan_urls_venue Steam details) as Hs.
  pose proof (scan_urls_venue Skinport details) as Hk.
  cbn [market_url] in Hs, Hk.
  unfold extract_market_urls. rewrite Hn.
  cbn [MarketUrls.steam MarketUrls.skinport MarketUrls.csdeals].
  rewrite Hs, Hk, quote_plus_encode, !or_else_assoc.
  do 3 (split; [reflexivity |]).
  split; [apply quote_safe |]. split; [apply quote_safe |].
  split; [apply plus_encode_safe |].
  intros c Hc.
  assert (Hu : url_plus_char c = false /\ url_char c = false).
  { cbn in Hc.
    repeat match type of Hc with
           | (Ascii.eqb c ?d || _) = true =>
               destruct (Ascii.eqb_spec c d); [subst c; split; reflexivity |];
               cbn [orb] in Hc
           end.
    discriminate. }
  destruct Hu as [Hp Hq].
  split; [| split].
  - exact (string_forall_mem _ _ _ (quote_safe n) Hq).
  - exact (string_forall_mem _ _ _ (quote_safe n) Hq).
  - exact (string_forall_mem _ _ _ (plus_encode_safe n) Hp).
Qed.

Lemma encoded_names_are_url_safe_witness :
  exists csdeals_name : string,
    MarketUrls.csdeals (extract_market_urls sample_details)
    = Some ("https://cs.deals/new/market?game=rust&sort=newest&sort_desc=1&exact_match=0&name="
            ++ csdeals_name)%string
    /\ string_forall url_plus_char csdeals_name = true.
Proof.
  destruct (encoded_names_are_url_safe sample_details "Tempered AK47" eq_refl)
    as (a & b & c & _ & _ & Hc & _ & _ & Hsafe & _).
  exists c. split; assumption.
Defined.

(** ** The encoded name determines the name *)

Lemma item_request_url (http : string -> http_outcome) (name : string)
    (log : list string) :
  ~ only_whitespace name ->
  py_strip name <> ""
  /\ snd (fetch_item_details_by_name http name log)
     = log ++ [(API_BASE ++ "/item/" ++ quote "" (py_strip name))%string].
Proof.
  intros Hws.
  assert (Hclean : py_strip name <> "").
  { intros H. apply Hws, py_strip_empty_iff, H. }
  split; [exact Hclean |].
  unfold fetch_item_details_by_name. rewrite or_empty.
  destruct (String.eqb_spec (py_strip name) ""); [contradiction |].
  unfold _http_get_json.
  destruct (http _) as [t|st u|ty t|[[| | | | | |d]|]]; cbv beta iota;
    try match goal with
        | |- context [if ?c then _ else _] => destruct c
        end; reflexivity.
Qed.

Lemma percent_decode_quote_char (c : ascii) (rest : string) :
  percent_decode false
    ((if always_safe c || mem_char c "" then String c "" else percent_encode c)
     ++ rest)%string
  = String c (percent_decode false rest).
Proof.
  destruct c as [[] [] [] [] [] [] [] []]; cbn; reflexivity.
Qed.

Lemma percent_decode_plus_char (c : ascii) (rest : string) :
  percent_decode true
    ((if Ascii.eqb c " " then "+"
      else if always_safe c then String c "" else percent_encode c)
     ++ rest)%string
  = String c (percent_decode true rest).
Proof.
  destruct c as [[] [] [] [] [] [] [] []]; cbn; reflexivity.
Qed.

Lemma percent_decode_quote (s : string) : percent_decode false (quote "" s) = s.
Proof.
  induction s as [|c s IH]; cbn [quote]; [reflexivity |].
  rewrite percent_decode_quote_char, IH. reflexivity.
Qed.

Lemma percent_decode_plus_encode (s : string) :
  percent_decode true (plus_encode s) = s.
Proof.
  induction s as [|c s IH]; cbn [plus_encode]; [reflexivity |].
  rewrite percent_decode_plus_char, IH. reflexivity.
Qed.

Lemma string_app_inv_head (p a b : string) :
  (p ++ a)%string = (p ++ b)%string -> a = b.
Proof.
  induction p as [|c p IH]; cbn; [trivial |]. intros [= H]. exact (IH H).
Qed.

(** Two documents with the same CS.Deals URL have the same name, and two
    names whose lookups request the same URL are the same once stripped: the
    encodings lose nothing. *)
Theorem encoded_name_determines_name :
  (forall (d1 d2 : dict) (n1 n2 : string),
     nonempty_str (dict_get d1 "name") = Some n1 ->
     nonempty_str (dict_get d2 "name") = Some n2 ->
     MarketUrls.csdeals (extract_market_urls d1)
     = MarketUrls.csdeals (extract_market_urls d2) ->
     n1 = n2)
  /\ (forall (http : string -> http_outcome) (name1 name2 : string)
             (log : list string),
        ~ only_whitespace name1 -> ~ only_whitespace name2 ->
        snd (fetch_item_details_by_name http name1 log)
        = snd (fetch_item_details_by_name http name2 log) ->
        py_strip name1 = py_strip name2).
Proof.
  split.
  - intros d1 d2 n1 n2 H1 H2. unfold extract_market_urls. rewrite H1, H2.
    cbn [MarketUrls.csdeals]. rewrite !quote_plus_encode.
    intros [= H]. try apply string_app_inv_head in H.
    rewrite <- (percent_decode_plus_encode n1), H.
    apply percent_decode_plus_encode.
  - intros http name1 name2 log H1 H2.
    destruct (item_request_url http name1 log H1) as [_ ->].
    destruct (item_request_url http name2 log H2) as [_ ->].
    intros H. apply app_inv_head in H. injection H as H.
    repeat apply string_app_inv_head in H.
    rewrite <- (percent_decode_quote (py_strip name1)), H.
    apply percent_decode_quote.
Qed.

(** ** When the breakdown fails *)

Lemma norm_price_raises (val : value) (e : exn) :
  _norm_price val = Raise e <-> overflows val = true /\ e = float_overflow.
Proof.
  unfold _norm_price, float_overflow.
  destruct val as [|[]|z|f|s|l|d];
    cbn [is_number negb py_float overflows bind];
    try (split; [discriminate | intros [H _]; discriminate]).
  destruct (is_infinity (float_of_Z z)); cbn [bind].
  - split; [intros [= <-]; split; reflexivity | intros [_ ->]; reflexivity].
  - split; [discriminate | intros [H _]; discriminate].
Qed.

Lemma norm_price_ok (val : value) :
  overflows val = false -> exists r, _norm_price val = Ok r.
Proof.
  intros H. destruct (_norm_price val) as [r|e] eqn:Hn; [exists r; reflexivity |].
  apply norm_price_raises in Hn. destruct Hn as [Hn _]. congruence.
Qed.

Lemma scan_entry_raises (st : scan_state) (entry : value) (e : exn) :
  scan_entry st entry = Raise e <-> breaks_scan entry = true /\ e = float_overflow.
Proof.
  destruct entry as [| | | | | |d]; cbn [scan_entry breaks_scan];
    try (split; [discriminate | intros [H _]; discriminate]).
  unfold marked_unavailable.
  destruct (is_False (dict_get d "isAvailable")); cbn [negb andb];
    [split; [discriminate | intros [H _]; discriminate] |].
  destruct (_norm_price (dict_get d "price")) as [r|e'] eqn:Hn; cbn [bind].
  - assert (Hov : overflows (dict_get d "price") = false).
    { destruct (overflows (dict_get d "price")) eqn:Ho; [| reflexivity].
      assert (H : _norm_price (dict_get d "price") = Raise float_overflow)
        by (apply norm_price_raises; split; [exact Ho | reflexivity]).
      congruence. }
    rewrite Hov. split; [| intros [H _]; discriminate].
    destruct r; [| discriminate].
    repeat match goal with
           | |- context [if ?c then _ else _] => destruct c
           end; discriminate.
  - apply norm_price_raises in Hn. destruct Hn as [Ho ->]. rewrite Ho.
    split; [intros [= <-]; split; reflexivity | intros [_ ->]; reflexivity].
Qed.

Lemma scan_raises (seq : list value) :
  forall st e,
    scan seq st = Raise e <-> existsb breaks_scan seq = true /\ e = float_overflow.
Proof.
  induction seq as [|entry rest IH]; intros st e; cbn [scan existsb].
  - split; [discriminate | intros [H _]; discriminate].
  - destruct (scan_entry st entry) as [st1|e1] eqn:H1; cbn [bind].
    + assert (Hb : breaks_scan entry = false).
      { destruct (breaks_scan entry) eqn:Hb; [| reflexivity].
        assert (H : scan_entry st entry = Raise float_overflow)
          by (apply scan_entry_raises; split; [exact Hb | reflexivity]).
        congruence. }
      rewrite Hb. cbn [orb]. apply IH.
    + apply scan_entry_raises in H1. destruct H1 as [Hb ->]. rewrite Hb.
      cbn [orb]. split; [intros [= <-]; split; reflexivity
                        | intros [_ ->]; reflexivity].
Qed.

Lemma scan_key_raises (details : dict) (key : string) (st : scan_state) (e : exn) :
  scan_key details key st = Raise e
  <-> existsb breaks_scan (entries_of details key) = true /\ e = float_overflow.
Proof.
  unfold scan_key, entries_of.
  destruct (dict_get details key);
    try (cbn; split; [discriminate | intros [H _]; discriminate]).
  apply scan_raises.
Qed.


(** [get_market_breakdown] fails in one way only, with the [OverflowError]
    of [float()], and exactly when the store price, or the price of an entry
    of the buy-price or sell-price list that is a dict and is not marked
    unavailable, is an integer past the range of a binary64. An entry that is
    marked unavailable cannot make it fail, whatever its price. *)
Theorem breakdown_fails_exactly_on_overflow :
  forall (details : dict) (e : exn),
    get_market_breakdown details = Raise e
    <-> (overflows (dict_get details "storePrice") = true
         \/ existsb breaks_scan (price_entries details) = true)
        /\ e = float_overflow.
Proof.
  intros details e. unfold get_market_breakdown, price_entries.
  rewrite existsb_app.
  change (extract_store_price_from_details details)
    with (_norm_price (dict_get details "storePrice")).
  destruct (_norm_price (dict_get details "storePrice")) as [store|e0] eqn:Hs;
    cbn [bind].
  - assert (Hov : overflows (dict_get details "storePrice") = false).
    { destruct (overflows (dict_get details "storePrice")) eqn:Ho; [| reflexivity].
      assert (H : _norm_price (dict_get details "storePrice") = Raise float_overflow)
        by (apply norm_price_raises; split; [exact Ho | reflexivity]).
      congruence. }
    rewrite Hov.
    destruct (scan_key details "buyPrices" _) as [st1|e1] eqn:H1; cbn [bind].
    + assert (Hb1 : existsb breaks_scan (entries_of details "buyPrices") = false).
      { destruct (existsb breaks_scan (entries_of details "buyPrices")) eqn:Hb;
          [| reflexivity].
        assert (H : scan_key details "buyPrices" (mkScan None None None)
                    = Raise float_overflow)
          by (apply scan_key_raises; split; [exact Hb | reflexivity]).
        congruence. }
      rewrite Hb1. cbn [orb].
      destruct (scan_key details "sellPrices" st1) as [st2|e2] eqn:H2; cbn [bind].
      * assert (Hb2 : existsb breaks_scan (entries_of details "sellPrices") = false).
        { destruct (existsb breaks_scan (entries_of details "sellPrices")) eqn:Hb;
            [| reflexivity].
          assert (H : scan_key details "sellPrices" st1 = Raise float_overflow)
            by (apply scan_key_raises; split; [exact Hb | reflexivity]).
          congruence. }
        rewrite Hb2. split; [discriminate | intros [[H | H] _]; discriminate].
      * apply scan_key_raises in H2. destruct H2 as [Hb2 ->]. rewrite Hb2.
        split; [intros [= <-]; split; [right |]; reflexivity
               | intros [_ ->]; reflexivity].
    + apply scan_key_raises in H1. destruct H1 as [Hb1 ->]. rewrite Hb1.
      cbn [orb].
      split; [intros [= <-]; split; [right |]; reflexivity
             | intros [_ ->]; reflexivity].
  - apply norm_price_raises in Hs. destruct Hs as [Ho ->]. rewrite Ho.
    split; [intros [= <-]; split; [left |]; reflexivity
           | intros [_ ->]; reflexivity].
Qed.

(** ** The exceptions of the formatter *)





Lemma render_market_lines_raises (d : dict) (flag : bool) (e : exn) :
  _render_market_lines (Some d) flag = Raise e
  <-> d <> [] /\ get_market_breakdown d = Raise e.
Proof.
  destruct d as [|kv d].
  - cbn. split; [discriminate | intros [H _]; congruence].
  - unfold _render_market_lines.
    destruct (get_market_breakdown (kv :: d)) as [bd|e'] eqn:Hbd; cbn [bind].
    + split; [discriminate | intros [_ H]; discriminate].
    + split; [intros [= <-]; split; [discriminate | reflexivity]
             | intros [_ [= <-]]; reflexivity].
Qed.



(** ** Store items, one per object *)





(** ** Item details for a store item *)



(** An item normalized from a payload whose name is a number reaches
    [quote] with that number. *)
Example details_for_numeric_name :
  match _normalize_store_item [("name", PyInt 42)] with
  | Ok item => fetch_item_details_for_store_item sample_http item []
  | Raise e => (Raise e, [])
  end
  = (Raise (TypeError "quote_from_bytes() expected bytes"), []).
Proof.
  vm_compute. reflexivity.
Qed.

(** ** The error kinds of the client *)


Lemma http_get_json_log (http : string -> http_outcome) (url : string)
    (log : list string) :
  snd (_http_get_json http url log) = log ++ [url].
Proof.
  reflexivity.
Qed.





(** ** Surrounding whitespace and the lookup by name *)

Lemma lstrip_by_fixed (ws : list string) (s : string) :
  starts_with_any ws s = false -> lstrip_by ws s = s.
Proof.
  destruct s as [|a [|b [|c r]]]; cbn [starts_with_any lstrip_by];
    try reflexivity; intros H;
    repeat (apply orb_false_iff in H; destruct H as [?H H]);
    repeat match goal with
           | E : mem_string _ ws = false |- _ => rewrite E; clear E
           end; try rewrite H; reflexivity.
Qed.

Lemma lstrip_by_result (ws : list string) (n : nat) :
  forall s, (String.length s <= n)%nat ->
            starts_with_any ws (lstrip_by ws s) = false.
Proof.
  induction n as [|n IH]; intros s Hlen.
  - destruct s; [reflexivity | cbn in Hlen; lia].
  - destruct s as [|a r]; [reflexivity |]. cbn in Hlen. cbn [lstrip_by].
    destruct (mem_string (String a "") ws) eqn:H1; [apply IH; lia |].
    destruct r as [|b r2]; [cbn; rewrite H1; reflexivity |].
    destruct (mem_string (String a (String b "")) ws) eqn:H2;
      [apply IH; cbn in Hlen; lia |].
    destruct r2 as [|c r3]; [cbn; rewrite H1, H2; reflexivity |].
    destruct (mem_string (String a (String b (String c ""))) ws) eqn:H3;
      [apply IH; cbn in Hlen; lia |].
    cbn. rewrite H1, H2, H3. reflexivity.
Qed.

Lemma starts_with_any_prefix (ws : list string) (r x : string) :
  starts_with_any ws (r ++ x)%string = false -> starts_with_any ws r = false.
Proof.
  destruct r as [|a [|b [|c r]]]; cbn; try reflexivity; intros H;
    repeat (apply orb_false_iff in H; destruct H as [?H H]);
    repeat match goal with
           | E : mem_string _ ws = false |- _ => rewrite E; clear E
           end; try rewrite H; reflexivity.
Qed.

Lemma rstrip_prefix (s : string) : exists x, s = (rstrip s ++ x)%string.
Proof.
  unfold rstrip.
  destruct (lstrip_by_spec (map string_rev whitespace)
              (String.length (string_rev s)) (string_rev s) (le_n _))
    as (_ & d & _ & Hs).
  exists (string_rev d).
  rewrite <- string_rev_app, <- Hs, string_rev_involutive. reflexivity.
Qed.

Lemma rstrip_idempotent (s : string) : rstrip (rstrip s) = rstrip s.
Proof.
  unfold rstrip. rewrite string_rev_involutive, lstrip_by_idempotent.
  reflexivity.
Qed.

Lemma py_strip_idempotent (s : string) : py_strip (py_strip s) = py_strip s.
Proof.
  unfold py_strip.
  assert (H : lstrip (rstrip (lstrip s)) = rstrip (lstrip s)).
  { unfold lstrip at 1. apply lstrip_by_fixed.
    destruct (rstrip_prefix (lstrip s)) as (x & Hx).
    apply (starts_with_any_prefix whitespace _ x). rewrite <- Hx.
    exact (lstrip_by_result whitespace _ s (le_n _)). }
  rewrite H. apply rstrip_idempotent.
Qed.

(** The lookup by name does not see the whitespace around the name: a name
    and the name stripped make the same request and give the same result. *)
Theorem lookup_ignores_surrounding_whitespace :
  forall (http : string -> http_outcome) (name : string) (log : list string),
    fetch_item_details_by_name http name log
    = fetch_item_details_by_name http (py_strip name) log.
Proof.
  intros http name log. unfold fetch_item_details_by_name.
  rewrite !or_empty, py_strip_idempotent. reflexivity.
Qed.

(** ** Which store is chosen among those of one date *)

Lemma string_ltb_leb_trans (a b c : string) :
  String.ltb a b = true -> String.leb b c = true -> String.ltb a c = true.
Proof.
  intros Hab Hbc. destruct (String.ltb a c) eqn:Hac; [reflexivity |].
  apply string_ltb_false_leb in Hac.
  pose proof (string_leb_trans _ _ _ Hbc Hac) as Hba.
  revert Hab Hba. unfold String.ltb, String.leb.
  rewrite (String.compare_antisym b a).
  destruct (String.compare a b); cbn; congruence.
Qed.

Section LastOfSorted.

Context {A : Type} (key : A -> string).

Let key_le (a b : A) : Prop := String.leb (key a) (key b) = true.

Lemma insert_by_nonempty (x : A) (l : list A) : insert_by key x l <> [].
Proof.
  destruct l as [|y l]; cbn; [| destruct (String.ltb (key x) (key y))];
    discriminate.
Qed.

Lemma last_cons (y d : A) (l : list A) : l <> [] -> last (y :: l) d = last l d.
Proof.
  destruct l; [congruence | reflexivity].
Qed.

Lemma last_insert_by (x d : A) (l : list A) :
  StronglySorted key_le l -> l <> [] ->
  last (insert_by key x l) d
  = if String.ltb (key x) (key (last l d)) then last l d else x.
Proof.
  induction 1 as [|y l Hl IH Hy]; [congruence |]. intros _.
  cbn [insert_by]. destruct (String.ltb (key x) (key y)) eqn:Hxy.
  - rewrite last_cons by discriminate.
    assert (Hlast : key_le y (last (y :: l) d)).
    { apply (last_greatest key); [constructor; assumption | left; reflexivity]. }
    rewrite (string_ltb_leb_trans _ _ _ Hxy Hlast). reflexivity.
  - destruct l as [|z l].
    + cbn. rewrite Hxy. reflexivity.
    + rewrite last_cons by apply insert_by_nonempty.
      rewrite IH by discriminate. rewrite (last_cons y d (z :: l)) by discriminate.
      reflexivity.
Qed.

Lemma last_fold_insert (l acc : list A) (d : A) :
  StronglySorted key_le acc -> acc <> [] ->
  last (fold_left (fun acc x => insert_by key x acc) l acc) d
  = fold_left (fun best x => if String.ltb (key x) (key best) then best else x)
      l (last acc d).
Proof.
  revert acc. induction l as [|x l IH]; intros acc Hs Hne; cbn [fold_left].
  - reflexivity.
  - rewrite IH by (apply insert_by_sorted || apply insert_by_nonempty; assumption).
    rewrite last_insert_by by assumption. reflexivity.
Qed.

(** Sorting and taking the last item is one pass that keeps the item at hand
    unless the next one has a key that is not smaller. *)
Lemma last_sorted_scan (m d : A) (l : list A) :
  last (sorted key (m :: l)) d
  = fold_left (fun best x => if String.ltb (key x) (key best) then best else x)
      l m.
Proof.
  unfold sorted. cbn [fold_left insert_by].
  rewrite last_fold_insert; [reflexivity | repeat constructor | discriminate].
Qed.

Lemma scan_position (l : list A) :
  forall (pre : list A) (m : A) (mid : list A),
    (forall s, In s pre -> String.leb (key s) (key m) = true) ->
    (forall s, In s mid -> String.ltb (key s) (key m) = true) ->
    exists l1 l2,
      pre ++ m :: mid ++ l
      = l1 ++ fold_left
                (fun best x => if String.ltb (key x) (key best) then best else x)
                l m :: l2
      /\ (forall s, In s l1 ->
            String.leb (key s)
              (key (fold_left
                      (fun best x =>
                         if String.ltb (key x) (key best) then best else x)
                      l m)) = true)
      /\ (forall s, In s l2 ->
            String.ltb (key s)
              (key (fold_left
                      (fun best x =>
                         if String.ltb (key x) (key best) then best else x)
                      l m)) = true).
Proof.
  induction l as [|x l IH]; intros pre m mid Hpre Hmid; cbn [fold_left].
  - exists pre, mid. rewrite app_nil_r. auto.
  - destruct (String.ltb (key x) (key m)) eqn:Hxm.
    + destruct (IH pre m (mid ++ [x])) as (l1 & l2 & Heq & H1 & H2).
      * exact Hpre.
      * intros s Hs. apply in_app_or in Hs.
        destruct Hs as [Hs | [<- | []]]; [exact (Hmid s Hs) | exact Hxm].
      * exists l1, l2. rewrite <- app_assoc in Heq. cbn in Heq. auto.
    + apply string_ltb_false_leb in Hxm.
      destruct (IH (pre ++ m :: mid) x []) as (l1 & l2 & Heq & H1 & H2).
      * intros s Hs. apply in_app_or in Hs.
        destruct Hs as [Hs | [<- | Hs]].
        -- exact (string_leb_trans _ _ _ (Hpre s Hs) Hxm).
        -- exact Hxm.
        -- exact (string_leb_trans _ _ _ (string_ltb_leb _ _ (Hmid s Hs)) Hxm).
      * intros s [].
      * exists l1, l2. rewrite <- app_assoc in Heq. cbn in Heq. auto.
Qed.

End LastOfSorted.

(** Of the stores of one date the last one of the greatest start is chosen:
    every store before it in the list starts no later, and every store after
    it starts strictly earlier (strings compared as Python compares them).
    Stores of one start time give the one that comes last in the list. *)
Theorem latest_store_is_last_of_greatest_start :
  forall (repr_other : value -> string) (matches : list dict),
    matches <> [] ->
    exists before after : list dict,
      matches = before ++ latest_store repr_other matches :: after
      /\ (forall s, In s before ->
            String.leb (start_key repr_other s)
              (start_key repr_other (latest_store repr_other matches)) = true)
      /\ (forall s, In s after ->
            String.ltb (start_key repr_other s)
              (start_key repr_other (latest_store repr_other matches)) = true).
Proof.
  intros repr_other [|m l] Hne; [congruence |].
  unfold latest_store. rewrite last_sorted_scan.
  destruct (scan_position (start_key repr_other) l [] m []) as (l1 & l2 & Heq & H1 & H2);
    [intros s [] | intros s [] |].
  exists l1, l2. cbn in Heq. auto.
Qed.

Lemma latest_store_is_last_of_greatest_start_witness :
  exists before after : list dict,
    [ store_entry "2025-11-06T18:00:00Z" "first";
      store_entry "2025-11-06T10:00:00Z" "early";
      store_entry "2025-11-06T18:00:00Z" "second" ]
    = before
      ++ latest_store sample_repr
           [ store_entry "2025-11-06T18:00:00Z" "first";
             store_entry "2025-11-06T10:00:00Z" "early";
             store_entry "2025-11-06T18:00:00Z" "second" ]
      :: after
    /\ (forall s, In s before ->
          String.leb (start_key sample_repr s)
            (start_key sample_repr
               (latest_store sample_repr
                  [ store_entry "2025-11-06T18:00:00Z" "first";
                    store_entry "2025-11-06T10:00:00Z" "early";
                    store_entry "2025-11-06T18:00:00Z" "second" ])) = true)
    /\ (forall s, In s after ->
          String.ltb (start_key sample_repr s)
            (start_key sample_repr
               (latest_store sample_repr
                  [ store_entry "2025-11-06T18:00:00Z" "first";
                    store_entry "2025-11-06T10:00:00Z" "early";
                    store_entry "2025-11-06T18:00:00Z" "second" ])) = true).
Proof.
  apply (latest_store_is_last_of_greatest_start sample_repr
           [ store_entry "2025-11-06T18:00:00Z" "first";
             store_entry "2025-11-06T10:00:00Z" "early";
             store_entry "2025-11-06T18:00:00Z" "second" ]).
  discriminate.
Defined.

(** ** The link buttons of the item view (embeds.py) *)

Lemma given_market_url (details : dict) (v : venue) :
  given (market_url v (extract_market_urls details))
  = market_url v (extract_market_urls details).
Proof.
  destruct (market_url v (extract_market_urls details)) as [u|] eqn:Hu;
    [| reflexivity].
  apply market_url_nonempty in Hu. cbn.
  destruct (String.eqb_spec u ""); congruence.
Qed.

(** The view of an item holds one link button per market URL that
    [extract_market_urls] gives, in the order Steam, CS.Deals, Skinport, each
    with the URL of its venue, which is never empty; there is no view exactly
    when there is no URL at all. A document whose name is a non-empty string
    always gets the three buttons; one without such a name never gets a
    CS.Deals button. *)
Theorem iteminfo_view_buttons :
  forall details : dict,
    let urls := extract_market_urls details in
    (build_iteminfo_view details = None <-> urls = MarketUrls.mk None None None)
    /\ (forall view, build_iteminfo_view details = Some view ->
          map button_label view
          = map venue_label
              (filter (fun v => is_some (market_url v urls))
                 [Steam; CSDeals; Skinport])
          /\ Forall (fun b =>
                       button_style b = link
                       /\ button_url b <> ""
                       /\ exists v, button_label b = venue_label v
                                    /\ market_url v urls = Some (button_url b))
               view)
    /\ (forall n, nonempty_str (dict_get details "name") = Some n ->
          exists a b c,
            urls = MarketUrls.mk (Some a) (Some b) (Some c)
            /\ build_iteminfo_view details
               = Some [ mkButton link a "Steam Market" "🟦";
                        mkButton link c "CS.Deals" "🟣";
                        mkButton link b "Skinport" "🟢" ])
    /\ (nonempty_str (dict_get details "name") = None ->
        forall view, build_iteminfo_view details = Some view ->
                     Forall (fun b => button_label b <> "CS.Deals") view).
Proof.
  intros details urls.
  pose proof (given_market_url details Steam) as Hs.
  pose proof (given_market_url details CSDeals) as Hc.
  pose proof (given_market_url details Skinport) as Hk.
  pose proof (market_url_nonempty details) as Hne.
  pose proof (named_urls_present details) as Hall.
  pose proof (unnamed_csdeals_absent details) as Hnone.
  cbn [market_url] in Hs, Hc, Hk.
  unfold build_iteminfo_view. rewrite Hs, Hc, Hk. clear Hs Hc Hk.
  fold urls in Hne, Hall, Hnone |- *.
  destruct urls as [[a|] [b|] [c|]];
    cbn [MarketUrls.steam MarketUrls.skinport MarketUrls.csdeals app Nat.eqb
         filter map is_some market_url venue_label button_label] in *.
  all: split; [split; intros H; discriminate H || reflexivity |].
  all: split;
    [ intros view H; try discriminate H; injection H as <-;
      (split; [reflexivity |]);
      repeat (apply Forall_cons;
              [ (split; [reflexivity |]); cbn [button_url button_label]; split;
                [ first [ exact (Hne Steam _ eq_refl)
                        | exact (Hne CSDeals _ eq_refl)
                        | exact (Hne Skinport _ eq_refl) ]
                | first [ exists Steam; split; reflexivity
                        | exists CSDeals; split; reflexivity
                        | exists Skinport; split; reflexivity ] ]
              | ]);
      apply Forall_nil
    | ].
  all: split;
    [ intros n Hn; destruct (Hall n Hn) as (a' & b' & c' & [= <- <- <-]);
      do 3 eexists; split; reflexivity
    | intros Hn view H; try discriminate H; injection H as <-;
      specialize (Hnone Hn); try discriminate Hnone;
      repeat (apply Forall_cons; [discriminate |]); apply Forall_nil ].
Qed.

(** ** The fields of the embeds (embeds.py) *)

Lemma concat_nonempty (sep x : string) (xs : list string) :
  x <> "" -> String.concat sep (x :: xs) <> "".
Proof.
  destruct x as [|c x]; [congruence |]. intros _.
  destruct xs; cbn; discriminate.
Qed.

(** No whitespace sequence starts with the byte that starts an emoji. *)
Lemma emoji_not_whitespace (r : string) : ~ only_whitespace (String "240" r).
Proof.
  intros H. inversion H as [Hnil | w s Hin Hs Heq].
  cbn in Hin.
  repeat (destruct Hin as [<- | Hin]; [cbn in Heq; discriminate Heq |]).
  destruct Hin.
Qed.

Lemma count_line_one (label : string) (v : value) (l : list string) :
  count_line label v = Ok l -> label <> "" ->
  (List.length l <= 1)%nat /\ Forall (fun s => s <> "") l.
Proof.
  unfold count_line. intros H Hl.
  destruct (is_number v).
  - destruct (py_int v); cbn [bind] in H; [| discriminate].
    injection H as <-. split; [cbn; lia |].
    constructor; [| constructor]. destruct label; [congruence | discriminate].
  - injection H as <-. split; [cbn; lia | constructor].
Qed.

(** The stats block, when there is one, is made of one to seven lines, none
    of them empty. *)
Lemma stats_block_lines (details : option dict) (s : string) :
  _build_stats_block details = Ok (Some s) ->
  exists lines,
    s = String.concat newline lines
    /\ lines <> [] /\ (List.length lines <= 7)%nat
    /\ Forall (fun l => l <> "") lines.
Proof.
  destruct details as [[|kv d]|]; try discriminate.
  unfold _build_stats_block. set (doc := kv :: d).
  destruct (if is_number (dict_get doc "storePrice") then _ else _)
    as [price|e0] eqn:Hp; cbn [bind]; [| discriminate].
  destruct (count_line "📦 Estimated supply: " _) as [l2|e2] eqn:H2; cbn [bind];
    [| discriminate].
  destruct (count_line "👥 Workshop subscribers: " _) as [l3|e3] eqn:H3;
    cbn [bind]; [| discriminate].
  destruct (if is_int (dict_get doc "votesUp") && is_int (dict_get doc "votesDown")
            then _ else _) as [l4|e4] eqn:H4; cbn [bind]; [| discriminate].
  destruct (count_line "⭐ Favourited: " _) as [l5|e5] eqn:H5; cbn [bind];
    [| discriminate].
  destruct (count_line "👀 Workshop views: " _) as [l6|e6] eqn:H6; cbn [bind];
    [| discriminate].
  destruct (match dict_get doc "breaksIntoComponents" with
            | PyDict (_ :: _ as components) => _
            | _ => Ok []
            end) as [l7|e7] eqn:H7; cbn [bind]; [| discriminate].
  apply count_line_one in H2, H3, H5, H6; try discriminate.
  assert (O4 : (List.length l4 <= 1)%nat /\ Forall (fun s => s <> "") l4).
  { destruct (is_int _ && is_int _); [| injection H4 as <-; split; [cbn; lia | constructor]].
    destruct (0 <? _)%Z; [| injection H4 as <-; split; [cbn; lia | constructor]].
    destruct (int_truediv _ _); cbn [bind] in H4; [| discriminate].
    injection H4 as <-. split; [cbn; lia |].
    constructor; [discriminate | constructor]. }
  assert (O7 : (List.length l7 <= 1)%nat /\ Forall (fun s => s <> "") l7).
  { destruct (dict_get doc "breaksIntoComponents") as [| | | | | |[|c cs]];
      try (injection H7 as <-; split; [cbn; lia | constructor]).
    destruct (component_parts (c :: cs)) as [[|p ps]|]; cbn [bind] in H7;
      try discriminate; injection H7 as <-;
      (split; [cbn; lia |]); repeat constructor. discriminate. }
  clear H4 H7 Hp.
  match goal with
  | |- match ?l1 ++ _ with _ => _ end = _ -> _ =>
      assert (O1 : (List.length l1 <= 1)%nat /\ Forall (fun s => s <> "") l1);
      [| revert O1; generalize l1; intros lines1 O1 ]
  end.
  { destruct (nonempty_str (dict_get doc "timeAccepted")) as [r|];
      destruct price as [p|]; cbn [orb negb];
      repeat match goal with
             | |- context [if ?c then _ else _] => destruct c
             end;
      (split; [cbn; lia |]); repeat constructor; try discriminate;
      rewrite py_strip_empty_iff; apply emoji_not_whitespace. }
  destruct (lines1 ++ l2 ++ l3 ++ l4 ++ l5 ++ l6 ++ l7) as [|x xs] eqn:Hlines;
    [discriminate |].
  intros [= <-]. exists (x :: xs).
  split; [reflexivity |]. split; [discriminate |].
  rewrite <- Hlines. split.
  - rewrite !List.length_app. lia.
  - repeat (apply Forall_app; split); tauto.
Qed.

Lemma render_nonempty (details : option dict) (flag : bool) (s : string) :
  _render_market_lines details flag = Ok s -> s <> "".
Proof.
  destruct details as [[|kv d]|]; try (intros [= <-]; discriminate).
  destruct (get_market_breakdown (kv :: d)) as [bd|e] eqn:Hbd.
  - rewrite (render_market_lines_lines (kv :: d) bd flag ltac:(discriminate) Hbd).
    intros [= <-].
    apply (concat_nonempty newline (store_line bd)
             (steam_line bd
              :: (if flag then [skinport_line bd; csdeals_line bd] else []))).
    unfold store_line, price_line.
    destruct (Breakdown.store_price bd); discriminate.
  - unfold _render_market_lines. rewrite Hbd. discriminate.
Qed.

Lemma stats_block_given (details : option dict) (stats : option string) :
  _build_stats_block details = Ok stats -> given stats = stats.
Proof.
  destruct stats as [s|]; [| reflexivity]. intros H.
  destruct (stats_block_lines details s H) as ([|x xs] & -> & Hne & _ & Hall);
    [congruence |].
  inversion Hall as [|? ? Hx _]; subst.
  pose proof (concat_nonempty newline x xs Hx) as Hc. cbn [given].
  destruct (String.eqb_spec (concat newline (x :: xs)) ""); congruence.
Qed.

Lemma app_literal_nonempty (a b : string) : b <> "" -> (a ++ b)%string <> "".
Proof.
  destruct a; cbn; [trivial | discriminate].
Qed.


(** The card of a store item, when it is built, holds the price block as its
    first field, then one details field exactly when the item has a truthy
    workshop id, an id that is not [None] or a truthy app id, then the stats
    block as its last field exactly when there is one; no field has an empty
    name or an empty value, and none is inline. Its title is the name of the
    item, its description is not empty, and its image is the icon of the
    item when that is truthy. *)
Theorem store_item_embed_fields :
  forall (repr_other : value -> string) (item : StoreItem)
         (details : option dict) (flag : bool) (e : Embed),
    build_store_item_embed repr_other item details flag = Ok e ->
    exists (prices : string) (stats : option string) (ids : list EmbedField),
      _render_market_lines details flag = Ok prices
      /\ _build_stats_block details = Ok stats
      /\ fields e
         = mkField "🛒 Prices" prices false
           :: ids
           ++ match stats with
              | Some s => [mkField "📊 Item stats" s false]
              | None => []
              end
      /\ (if truthy (workshop_file_id item)
             || negb (match id item with PyNone => true | _ => false end)
             || truthy (app_id item)
          then exists v, ids = [mkField "🧾 Details" v false]
          else ids = [])
      /\ Forall (fun f => field_name f <> "" /\ field_value f <> ""
                          /\ inline f = false) (fields e)
      /\ title e = name item
      /\ description e <> ""
      /\ image e = (if truthy (icon_url item) then Some (icon_url item) else None)
      /\ thumbnail e = None
      /\ color e = dark_orange
      /\ footer e = Some "SCMM • Weekly Rust Store • Auto-deletes in 5 minutes".
Proof.
  intros repr_other item details flag e. unfold build_store_item_embed.
  match goal with
  | |- bind ?m _ = _ -> _ => destruct m as [subtitle|esub] eqn:Hsub
  end; cbn [bind]; [| discriminate].
  assert (Hdesc : subtitle <> "").
  { revert Hsub.
    destruct (item_type item) as [|b|z|f|[|c s]|l|d];
      cbn [truthy negb String.eqb];
      repeat match goal with
             | |- context [if ?c then _ else _] =>
                 match type of c with bool => destruct c end
             end;
      cbn [app py_join str_items bind negb String.eqb];
      try discriminate; intros [= <-]; try discriminate;
      cbn [concat]; apply app_literal_nonempty; discriminate. }
  destruct (_render_market_lines details flag) as [prices|e1] eqn:Hr;
    cbn [bind]; [| discriminate].
  destruct (_build_stats_block details) as [stats|e2] eqn:Hst;
    cbn [bind]; [| discriminate].
  rewrite (stats_block_given details stats Hst).
  pose proof (render_nonempty details flag prices Hr) as Hp.
  assert (Hs : forall s, stats = Some s -> s <> "").
  { intros s ->. pose proof (stats_block_given details _ Hst) as Hg.
    cbn [given] in Hg. destruct (String.eqb_spec s ""); congruence. }
  intros [= <-]. exists prices, stats.
  destruct (truthy (workshop_file_id item)), (id item) as [| | | | | |],
    (truthy (app_id item)), (truthy (icon_url item)), stats as [block|];
    cbn [orb negb app]; cbv zeta;
    match goal with
    | |- context [add_field _ "🧾 Details" ?v false] =>
        exists [mkField "🧾 Details" v false]
    | _ => exists []
    end; (split; [reflexivity |]); (split; [reflexivity |]);
    (split; [reflexivity |]);
    (split; [try reflexivity; eexists; reflexivity |]);
    (split;
     [ cbn [fields set_footer add_field set_image app];
       repeat (apply Forall_cons;
               [ cbn [field_name field_value inline];
                 repeat split; try discriminate; try exact Hp;
                 try (apply Hs; reflexivity)
               | ]);
       try apply Forall_nil
     | repeat split; assumption ]).
Qed.

Lemma store_item_embed_fields_witness :
  exists e : Embed,
    build_store_item_embed sample_repr
      (mkStoreItem (PyInt 7) (PyStr "Tempered AK47") None PyNone PyNone PyNone
         (PyStr "Skin") PyNone)
      (Some sample_details) false = Ok e
    /\ title e = PyStr "Tempered AK47"
    /\ description e <> "".
Proof.
  eexists. split; [vm_compute; reflexivity |].
  match goal with
  | |- title ?e = _ /\ _ =>
      destruct (store_item_embed_fields sample_repr
                  (mkStoreItem (PyInt 7) (PyStr "Tempered AK47") None PyNone
                     PyNone PyNone (PyStr "Skin") PyNone)
                  (Some sample_details) false e
                  ltac:(vm_compute; reflexivity))
        as (p & s & ids & _ & _ & _ & _ & _ & Ht & Hd & _)
  end.
  split; assumption.
Defined.

(** An item type that is a number, which [_normalize_store_item] lets
    through, makes the card fail. *)
Example store_item_embed_numeric_type :
  forall item,
    _normalize_store_item [("name", PyStr "Tempered AK47"); ("itemType", PyInt 3)]
    = Ok item ->
    build_store_item_embed sample_repr item None false
    = Raise (TypeError "sequence item 0: expected str instance, int found").
Proof.
  intros item [= <-]. reflexivity.
Qed.

Lemma render_third_party (d : dict) (bd : Breakdown.t) (short full : string) :
  d <> [] -> get_market_breakdown d = Ok bd ->
  _render_market_lines (Some d) false = Ok short ->
  _render_market_lines (Some d) true = Ok full ->
  full = (short ++ newline ++ skinport_line bd ++ newline ++ csdeals_line bd)%string.
Proof.
  intros Hd Hbd.
  rewrite !(render_market_lines_lines d bd _ Hd Hbd).
  intros [= <-] [= <-]. cbn [app concat].
  rewrite !string_app_assoc. reflexivity.
Qed.

Lemma render_same_failure (d : dict) (flag1 flag2 : bool) (x : exn) :
  _render_market_lines (Some d) flag1 = Raise x ->
  _render_market_lines (Some d) flag2 = Raise x.
Proof.
  rewrite !render_market_lines_raises. trivial.
Qed.

(** The lookup card and the overview card of a document are built or fail
    together, with the same error. Built, they have the same title (the name
    of the document, or ["Unknown item"] when it is falsy), the same image
    and the same stats field, present exactly when there is a stats block;
    the price block of the overview is that of the lookup followed by the
    Skinport and CS.Deals lines, or the same two lines when the document is
    empty. Only the lookup card sets a thumbnail. No field has an empty name
    or value. *)
Theorem lookup_and_overview_embeds :
  forall details : dict,
    (forall x, build_lookup_embed details = Raise x
               <-> build_item_overview_embed details = Raise x)
    /\ (forall a, build_lookup_embed details = Ok a ->
          exists b short full stats,
            build_item_overview_embed details = Ok b
            /\ _render_market_lines (Some details) false = Ok short
            /\ _render_market_lines (Some details) true = Ok full
            /\ _build_stats_block (Some details) = Ok stats
            /\ fields a
               = mkField "🛒 Prices" short false
                 :: match stats with
                    | Some s => [mkField "📊 Item stats" s false]
                    | None => []
                    end
            /\ fields b
               = mkField "🛒 Prices" full false
                 :: match stats with
                    | Some s => [mkField "📊 Item stats" s false]
                    | None => []
                    end
            /\ (forall bd, details <> [] -> get_market_breakdown details = Ok bd ->
                  full = (short ++ newline ++ skinport_line bd ++ newline
                          ++ csdeals_line bd)%string)
            /\ (details = [] -> full = short)
            /\ Forall (fun f => field_name f <> "" /\ field_value f <> ""
                                /\ inline f = false) (fields a ++ fields b)
            /\ title a = py_or (dict_get details "name") (PyStr "Unknown item")
            /\ title b = title a
            /\ image b = image a
            /\ thumbnail a = image a
            /\ thumbnail b = None).
Proof.
  intros details. unfold build_lookup_embed, build_item_overview_embed.
  destruct (_render_market_lines (Some details) false) as [short|e1] eqn:Hf;
    destruct (_render_market_lines (Some details) true) as [full|e2] eqn:Ht;
    cbn [bind].
  2:{ apply (render_same_failure details true false) in Ht. congruence. }
  2:{ apply (render_same_failure details false true) in Hf. congruence. }
  2:{ apply (render_same_failure details false true) in Hf.
      assert (e1 = e2) as -> by congruence.
      split; [tauto | discriminate]. }
  destruct (_build_stats_block (Some details)) as [stats|e3] eqn:Hst; cbn [bind];
    [| split; [tauto | discriminate] ].
  rewrite (stats_block_given _ stats Hst).
  pose proof (render_nonempty _ _ _ Hf) as Hshort.
  pose proof (render_nonempty _ _ _ Ht) as Hfull.
  assert (Hs : forall s, stats = Some s -> s <> "").
  { intros s ->. pose proof (stats_block_given _ _ Hst) as Hg.
    cbn [given] in Hg. destruct (String.eqb_spec s ""); congruence. }
  split; [split; discriminate |].
  intros a [= <-]. eexists. exists short, full, stats.
  split; [reflexivity |]. do 3 (split; [reflexivity |]).
  destruct (truthy (py_or (py_or (dict_get details "iconUrl")
                                 (dict_get details "iconURL"))
                          (dict_get details "imageUrl")));
    destruct stats as [block|];
    (split; [reflexivity |]); (split; [reflexivity |]);
    (split; [intros bd Hd Hbd; exact (render_third_party _ bd _ _ Hd Hbd Hf Ht) |]);
    (split; [intros ->; cbn in Hf, Ht; congruence |]);
    (split;
     [ cbn [fields set_footer add_field set_image set_thumbnail app];
       repeat (apply Forall_cons;
               [ cbn [field_name field_value inline];
                 repeat split; try discriminate; try assumption;
                 try (apply Hs; reflexivity)
               | ]);
       apply Forall_nil
     | repeat split ]).
Qed.

(** ** The replies of the item lookup command (main.py) *)





(** ** The weekly store command (main.py) *)









Section WeekCards.

Variable http : string -> http_outcome.

Variable repr_other : value -> string.

Variable target_date : date.

Variable store_id : option string.


End WeekCards.




Section WeekLookupFacts.

Variable http : string -> http_outcome.

Variable repr_other : value -> string.

Variable Date : Z -> Z -> Z -> result date.


End WeekLookupFacts.



